(** * Polyglot interop client (src/meta/interop/client.py)

    A shallow embedding of [PolyglotInteropClient]: the instance fields are a
    record, every method is a function in a state-and-exception monad over
    that record, and whatever the outside world decides (the reply to an HTTP
    request, the result of a WebSocket handshake, whether a timer fired) is an
    explicit argument of the method that asks for it.  A coroutine that
    suspends is cut at its [await]: [send_websocket] is [send_websocket_begin]
    (up to the frame being written) followed by [send_websocket_wait] (the
    [wait_for] and its handler). *)

From Stdlib Require Import ZArith.
From stdpp Require Import gmap strings list fin_maps pretty.

Open Scope Z_scope.
Open Scope string_scope.

(** ** Values *)

(** What [json.loads] returns and [json.dumps] accepts.  [JNull] is Python's
    [None]; a [dict] keeps its insertion order. *)
#[warnings="-register-all"]
Inductive json : Type :=
| JNull
| JBool (b : bool)
| JInt (n : Z)
| JStr (s : string)
| JList (items : list json)
| JDict (fields : list (string * json)).

(** The exceptions the client raises or meets.  [PyException] is the bare
    [Exception(msg)] the client raises itself; [LibraryError] stands for a
    failure of aiohttp or websockets (refused connection, DNS, TLS ...). *)
Inductive exn : Type :=
| PyException (msg : string)
| AttributeError (obj attr : string)
| KeyError (key : string)
| TypeError (msg : string)
| JSONDecodeError
| ConnectionClosed
| TimeoutError
| InvalidStateError
| LibraryError (name : string).

Global Instance exn_eq_dec : EqDecision exn.
Proof. solve_decision. Defined.

(** ** Configuration and instance state *)

Record InteropConfig : Type := {
  server_url : string;
  module_name : string;
  language : string;
  port : option Z;
  auto_register : bool
}.

Definition InteropConfig_default : InteropConfig :=
  {| server_url := "http://localhost:4000";
     module_name := "python-module";
     language := "python";
     port := None;
     auto_register := true |}.

(** An [asyncio.Future]. *)
Inductive future_state : Type :=
| FPending
| FResult (v : json)
| FException (e : exn)
| FCancelled.

(** What [print] writes; each constructor is one f-string of the source. *)
Inductive log_line : Type :=
| LogRegistered (message : json)            (* "Module registered: ..." *)
| LogRegistrationFailed (e : exn)           (* "Registration failed: ..." *)
| LogUnregistered (message : json)          (* "Module unregistered: ..." *)
| LogUnregistrationFailed (e : exn)         (* "Unregistration failed: ..." *)
| LogCallFailed (target method : string) (e : exn)
| LogQueued (message_id : json) (target method : string)
| LogSendFailed (target method : string) (e : exn)
| LogConnected                              (* "WebSocket connected" *)
| LogConnectFailed (e : exn)                (* "Failed to connect WebSocket: ..." *)
| LogParseFailed (e : exn)                  (* "Failed to parse WebSocket message: ..." *)
| LogDisconnected                           (* "WebSocket disconnected" *)
| LogListenerError (e : exn)                (* "WebSocket error: ..." in the listener *)
| LogModules (data : json)                  (* "Available modules: ..." *)
| LogErrorFrame (error : json)              (* "WebSocket error: ..." for an error frame *)
| LogUnknown (message : json).              (* "Unknown WebSocket message: ..." *)

(** Everything the client does to the outside world, in order. *)
Inductive effect : Type :=
| Print (l : log_line)
| SessionOpen (s : nat)
| SessionClose (s : nat)
| HttpPost (url : string) (body : json)
| HttpDelete (url : string)
| WsConnect (url : string)
| WsSend (ws : nat) (frame : json)
| WsClose (ws : nat)
| Sleep (seconds : Z)
| CreateListenerTask
| CreateSendTask (ws : nat) (frame : json).

(** The fields set by [__init__], the futures the client has created (a
    handler stored in [message_handlers] is the [set_result] of the future
    at that index) and the trace of effects. *)
Record client : Type := {
  config : InteropConfig;
  session : option nat;
  websocket : option nat;
  message_handlers : gmap string nat;
  running : bool;
  futures : list future_state;
  trace : list effect
}.

Definition new_client (cfg : option InteropConfig) : client :=
  {| config := default InteropConfig_default cfg;
     session := None;
     websocket := None;
     message_handlers := ∅;
     running := false;
     futures := [];
     trace := [] |}.

Definition set_session (s : option nat) (c : client) : client :=
  {| config := config c; session := s; websocket := websocket c;
     message_handlers := message_handlers c; running := running c;
     futures := futures c; trace := trace c |}.

Definition set_websocket (w : option nat) (c : client) : client :=
  {| config := config c; session := session c; websocket := w;
     message_handlers := message_handlers c; running := running c;
     futures := futures c; trace := trace c |}.

Definition set_message_handlers (h : gmap string nat) (c : client) : client :=
  {| config := config c; session := session c; websocket := websocket c;
     message_handlers := h; running := running c;
     futures := futures c; trace := trace c |}.

Definition set_futures (fs : list future_state) (c : client) : client :=
  {| config := config c; session := session c; websocket := websocket c;
     message_handlers := message_handlers c; running := running c;
     futures := fs; trace := trace c |}.

Definition add_effect (e : effect) (c : client) : client :=
  {| config := config c; session := session c; websocket := websocket c;
     message_handlers := message_handlers c; running := running c;
     futures := futures c; trace := trace c ++ [e] |}.

(** ** The monad of a method body: it may raise, and the changes it made to
    the instance before raising stay. *)
Definition M (A : Type) : Type := client → (exn + A) * client.

Definition ret {A} (a : A) : M A := λ c, (inr a, c).
Definition raise {A} (e : exn) : M A := λ c, (inl e, c).
Definition bind {A B} (m : M A) (k : A → M B) : M B :=
  λ c, match m c with
       | (inr a, c') => k a c'
       | (inl e, c') => (inl e, c')
       end.

(** [try: body / except Exception as e: handler(e)] *)
Definition try_except {A} (body : M A) (handler : exn → M A) : M A :=
  λ c, match body c with
       | (inr a, c') => (inr a, c')
       | (inl e, c') => handler e c'
       end.

(** [try: body / except <one class> as e: handler(e)] *)
Definition try_except_only {A} (cls : exn) (body : M A) (handler : exn → M A) : M A :=
  try_except body (λ e, if decide (e = cls) then handler e else raise e).

Notation "x <- m ;; k" := (bind m (λ x, k))
  (at level 100, m at next level, right associativity, only parsing).
Notation "m ;;; k" := (bind m (λ _, k))
  (at level 100, right associativity, only parsing).

Definition get {A} (f : client → A) : M A := λ c, (inr (f c), c).
Definition modify (f : client → client) : M unit := λ c, (inr tt, f c).
Definition emit (e : effect) : M unit := modify (add_effect e).
Definition print (l : log_line) : M unit := emit (Print l).

(** The outcome of an external call that returns nothing: [None] when it
    completes, [Some e] when it raises [e]. *)
Definition external (out : option exn) : M unit :=
  match out with
  | None => ret tt
  | Some e => raise e
  end.

(** ** Python operations on values *)

Fixpoint assoc (k : string) (fields : list (string * json)) : option json :=
  match fields with
  | [] => None
  | (k', v) :: rest => if decide (k = k') then Some v else assoc k rest
  end.

(** [message.get(key)]: only a [dict] has [get]; a missing key gives [None]. *)
Definition py_get (message : json) (key : string) : M json :=
  match message with
  | JDict fields => ret (default JNull (assoc key fields))
  | _ => raise (AttributeError "object" "get")
  end.

(** [message[key]] with a string key. *)
Definition py_getitem (message : json) (key : string) : M json :=
  match message with
  | JDict fields =>
      match assoc key fields with
      | Some v => ret v
      | None => raise (KeyError key)
      end
  | _ => raise (TypeError "not subscriptable by str")
  end.

(** [value == literal] for a string literal. *)
Definition py_eq_str (value : json) (literal : string) : bool :=
  match value with
  | JStr s => bool_decide (s = literal)
  | _ => false
  end.

(** [s.replace(old, new)] for a non-empty [old]: every occurrence, left to
    right, without overlap.  [skip] counts the characters of an occurrence
    still to be dropped. *)
Fixpoint is_prefix (p s : string) : bool :=
  match p, s with
  | EmptyString, _ => true
  | String a p', String b s' => bool_decide (a = b) && is_prefix p' s'
  | String _ _, EmptyString => false
  end.

Fixpoint replace_from (old new : string) (skip : nat) (s : string) : string :=
  match s with
  | EmptyString => EmptyString
  | String a s' =>
      match skip with
      | S k => replace_from old new k s'
      | O =>
          if is_prefix old s
          then new +:+ replace_from old new (Nat.pred (String.length old)) s'
          else String a (replace_from old new O s')
      end
  end.

Definition str_replace (old new s : string) : string := replace_from old new O s.

(** ** The request/reply channel *)

(** The reply to an HTTP request: its status and what [response.json()]
    gives, which may itself raise. *)
Record http_response : Type := {
  status : Z;
  json_body : exn + json
}.

(** What a request comes to: the transport raises, or a reply arrives. *)
Definition http_outcome : Type := exn + http_response.

Definition lift {A} (r : exn + A) : M A :=
  match r with
  | inl e => raise e
  | inr a => ret a
  end.

(** [self.session.post(url, json=body)]: [self.session] is [None] before
    [init] and after [close], and [None] has no attribute [post]. *)
Definition session_post (url : string) (body : json) (out : http_outcome) : M http_response :=
  s <- get session ;;
  match s with
  | None => raise (AttributeError "NoneType" "post")
  | Some _ => emit (HttpPost url body) ;;; lift out
  end.

Definition session_delete (url : string) (out : http_outcome) : M http_response :=
  s <- get session ;;
  match s with
  | None => raise (AttributeError "NoneType" "delete")
  | Some _ => emit (HttpDelete url) ;;; lift out
  end.

Definition port_json (p : option Z) : json :=
  match p with
  | None => JNull
  | Some n => JInt n
  end.

Definition register (out : http_outcome) : M unit :=
  cfg <- get config ;;
  try_except
    (response <- session_post (server_url cfg +:+ "/register")
                   (JDict [("name", JStr (module_name cfg));
                           ("language", JStr (language cfg));
                           ("endpoints", JList [JStr "rpc"]);
                           ("port", port_json (port cfg))]) out ;;
     if bool_decide (status response ≠ 200)
     then raise (PyException ("Registration failed: " +:+ pretty (status response)))
     else
       result <- lift (json_body response) ;;
       message <- py_getitem result "message" ;;
       print (LogRegistered message))
    (λ e, print (LogRegistrationFailed e) ;;; raise e).

Definition unregister (out : http_outcome) : M unit :=
  cfg <- get config ;;
  try_except
    (response <- session_delete
                   (server_url cfg +:+ "/register/" +:+ module_name cfg) out ;;
     if bool_decide (status response ≠ 200)
     then raise (PyException ("Unregistration failed: " +:+ pretty (status response)))
     else
       result <- lift (json_body response) ;;
       message <- py_getitem result "message" ;;
       print (LogUnregistered message))
    (λ e, print (LogUnregistrationFailed e) ;;; raise e).

(** A parameter declared [params: Dict[str, Any] = None]: [None] here is the
    argument left out, which binds the default. *)
Definition param_default (arg : option json) : json := default JNull arg.

(** [if params is None: params = {}] *)
Definition params_or_empty (params : json) : json :=
  match params with
  | JNull => JDict []
  | _ => params
  end.

Definition call (target method : string) (params : option json)
    (out : http_outcome) : M json :=
  let params := params_or_empty (param_default params) in
  cfg <- get config ;;
  try_except
    (response <- session_post (server_url cfg +:+ "/rpc")
                   (JDict [("target", JStr target);
                           ("method", JStr method);
                           ("params", params)]) out ;;
     if bool_decide (status response ≠ 200)
     then raise (PyException ("RPC call failed: " +:+ pretty (status response)))
     else
       result <- lift (json_body response) ;;
       py_getitem result "result")
    (λ e, print (LogCallFailed target method e) ;;; raise e).

Definition send (target method : string) (params : option json) (priority : Z)
    (out : http_outcome) : M json :=
  let params := params_or_empty (param_default params) in
  cfg <- get config ;;
  try_except
    (response <- session_post (server_url cfg +:+ "/queue")
                   (JDict [("target", JStr target);
                           ("method", JStr method);
                           ("params", params);
                           ("priority", JInt priority)]) out ;;
     if bool_decide (status response ≠ 200)
     then raise (PyException ("Message send failed: " +:+ pretty (status response)))
     else
       result <- lift (json_body response) ;;
       message_id <- py_getitem result "messageId" ;;
       print (LogQueued message_id target method) ;;;
       py_getitem result "messageId")
    (λ e, print (LogSendFailed target method e) ;;; raise e).

(** ** The duplex channel *)

(** The result of [websockets.connect]: an error, or the new connection. *)
Definition handshake : Type := exn + nat.

(** [create_task] only schedules the listener; it runs in later steps. *)
Definition connect_websocket (hs : handshake) : M unit :=
  cfg <- get config ;;
  let ws_url := str_replace "http" "ws" (server_url cfg) in
  try_except
    (emit (WsConnect ws_url) ;;;
     ws <- lift hs ;;
     modify (set_websocket (Some ws)) ;;;
     print LogConnected ;;;
     emit CreateListenerTask)
    (λ e, print (LogConnectFailed e)).

(** [message_id in self.message_handlers]: the keys are strings, so only a
    string can be found; a list or a dict cannot be hashed. *)
Definition handler_lookup (message_id : json) : M (option (string * nat)) :=
  match message_id with
  | JStr s =>
      h <- get message_handlers ;;
      ret (match h !! s with
           | Some f => Some (s, f)
           | None => None
           end)
  | JList _ | JDict _ => raise (TypeError "unhashable type")
  | _ => ret None
  end.

(** [future.set_result(value)] *)
Definition set_result (f : nat) (value : json) : M unit :=
  fs <- get futures ;;
  match fs !! f with
  | Some FPending => modify (set_futures (<[f := FResult value]> fs))
  | _ => raise InvalidStateError
  end.

Definition handle_websocket_message (message : json) : M unit :=
  msg_type <- py_get message "type" ;;
  if py_eq_str msg_type "modules" then
    data <- py_getitem message "data" ;;
    print (LogModules data)
  else if py_eq_str msg_type "response" then
    message_id <- py_get message "id" ;;
    found <- handler_lookup message_id ;;
    match found with
    | Some (key, handler) =>
        h <- get message_handlers ;;
        modify (set_message_handlers (delete key h)) ;;;
        result <- py_getitem message "result" ;;
        set_result handler result
    | None => ret tt
    end
  else if py_eq_str msg_type "error" then
    error <- py_getitem message "error" ;;
    print (LogErrorFrame error)
  else
    print (LogUnknown message).

(** The inbound frames the handler tells apart by their ["type"]. *)
Definition response_frame (id : string) (result : json) : json :=
  JDict [("type", JStr "response"); ("id", JStr id); ("result", result)].

Definition error_frame (id : string) (error : json) : json :=
  JDict [("type", JStr "error"); ("id", JStr id); ("error", error)].

(** A frame as the listener meets it, by what [json.loads] makes of it:
    text it rejects with [JSONDecodeError]; a frame on which it fails with
    another exception, named by [error] ([RecursionError] on nesting too
    deep, [ValueError] on an integer over the digit limit,
    [UnicodeDecodeError] on a binary frame that is not UTF-8); or text that
    denotes a value. *)
Inductive wire : Type :=
| Unparseable (text : string)
| Unloadable (text : string) (error : string)
| Text (value : json).

Definition json_loads (message : wire) : M json :=
  match message with
  | Unparseable _ => raise JSONDecodeError
  | Unloadable _ error => raise (LibraryError error)
  | Text v => ret v
  end.

(** The body of [async for message in self.websocket], over the frames that
    arrive.  An exception other than [JSONDecodeError] leaves the loop. *)
Fixpoint listener_loop (inbound : list wire) : M unit :=
  match inbound with
  | [] => ret tt
  | message :: rest =>
      try_except_only JSONDecodeError
        (data <- json_loads message ;;
         handle_websocket_message data)
        (λ e, print (LogParseFailed e)) ;;;
      listener_loop rest
  end.

(** How the iteration over a connection ends: it has not ended (the listener
    is suspended waiting for the next frame), the connection closed normally
    (the iteration stops), it was lost ([ConnectionClosed] is raised into the
    loop), or something else is raised. *)
Inductive ending : Type :=
| StillOpen
| ClosedNormally
| Lost
| Failed (e : exn).

Inductive listener_state : Type :=
| Listening
| Connecting
| Respawned
| Stopped.

(** [_websocket_listener] from its [try] on, over the frames a connection
    delivers and its ending.  [reconnect] is what the handshake of the
    reconnection attempt comes to, [None] while it has not completed. *)
Definition listener_body (inbound : list wire) (e : ending)
    (reconnect : option handshake) : M listener_state :=
  try_except
    (listener_loop inbound ;;;
     match e with
     | StillOpen => ret Listening
     | ClosedNormally => ret Stopped
     | Lost => raise ConnectionClosed
     | Failed err => raise err
     end)
    (λ err,
       if decide (err = ConnectionClosed) then
         print LogDisconnected ;;;
         emit (Sleep 5) ;;;
         match reconnect with
         | None => ret Connecting
         | Some hs =>
             connect_websocket hs ;;;
             ret (if hs is inr _ then Respawned else Stopped)
         end
       else
         print (LogListenerError err) ;;; ret Stopped).

(** The whole coroutine: [if not self.websocket: return] is checked once,
    when the task first runs. *)
Definition websocket_listener (inbound : list wire) (e : ending)
    (reconnect : option handshake) : M listener_state :=
  ws <- get websocket ;;
  match ws with
  | None => ret Stopped
  | Some _ => listener_body inbound e reconnect
  end.

(** A connection as the listener sees it, and the listeners that follow one
    another: each reconnection attempt takes the next outcome of [later]. *)
Record connection : Type := {
  conn_id : nat;
  inbound : list wire;
  conn_ending : ending
}.

Definition handshake_of (a : exn + connection) : handshake :=
  match a with
  | inl e => inl e
  | inr conn => inr (conn_id conn)
  end.

Fixpoint listener_chain (conn : connection) (later : list (exn + connection))
    : M listener_state :=
  match later with
  | [] => websocket_listener (inbound conn) (conn_ending conn) None
  | a :: rest =>
      st <- websocket_listener (inbound conn) (conn_ending conn)
              (Some (handshake_of a)) ;;
      match st, a with
      | Respawned, inr conn' => listener_chain conn' rest
      | _, _ => ret st
      end
  end.

(** [f"ws_{int(time.time() * 1000)}_{uuid.uuid4().hex[:8]}"], from the clock
    reading in milliseconds and the 32 hexadecimal digits of the UUID. *)
Definition make_message_id (now_ms : Z) (uuid_hex : string) : string :=
  "ws_" +:+ pretty now_ms +:+ "_" +:+ String.substring 0 8 uuid_hex.

(** [send_websocket] up to and including [await self.websocket.send(...)];
    [sent] is the outcome of that [send].  Returns the identifier and the
    future the caller then waits on. *)
Definition send_websocket_begin (target method : string) (params : option json)
    (now_ms : Z) (uuid_hex : string) (sent : option exn) : M (string * nat) :=
  ws <- get websocket ;;
  match ws with
  | None => raise (PyException "WebSocket not connected")
  | Some ws =>
      let params := params_or_empty (param_default params) in
      let message_id := make_message_id now_ms uuid_hex in
      fs <- get futures ;;
      let future := length fs in
      modify (set_futures (fs ++ [FPending])) ;;;
      h <- get message_handlers ;;
      modify (set_message_handlers (<[message_id := future]> h)) ;;;
      emit (WsSend ws (JDict [("type", JStr "call");
                              ("id", JStr message_id);
                              ("target", JStr target);
                              ("method", JStr method);
                              ("params", params)])) ;;;
      external sent ;;;
      ret (message_id, future)
  end.

(** [asyncio.wait_for(future, timeout=10.0)] when the waiting task runs
    again: a finished future gives its outcome; otherwise, if the ten
    seconds have [elapsed], the future is cancelled and [TimeoutError] is
    raised; otherwise the task stays suspended ([None]). *)
Definition wait_for (future : nat) (elapsed : bool) : M (option json) :=
  fs <- get futures ;;
  match fs !! future with
  | Some (FResult v) => ret (Some v)
  | Some (FException e) => raise e
  | Some FCancelled => raise (LibraryError "CancelledError")
  | Some FPending =>
      if elapsed
      then modify (set_futures (<[future := FCancelled]> fs)) ;;; raise TimeoutError
      else ret None
  | None => raise (LibraryError "no such future")
  end.

(** The rest of [send_websocket]: [Some result] when the call returns,
    [None] while it is still suspended. *)
Definition send_websocket_wait (message_id : string) (future : nat)
    (elapsed : bool) : M (option json) :=
  try_except_only TimeoutError
    (wait_for future elapsed)
    (λ _, h <- get message_handlers ;;
          modify (set_message_handlers (delete message_id h)) ;;;
          raise (PyException "WebSocket call timeout")).

(** The whole call: [meanwhile] is what the rest of the event loop does to
    the instance while the caller is suspended. *)
Definition send_websocket (target method : string) (params : option json)
    (now_ms : Z) (uuid_hex : string) (sent : option exn)
    (meanwhile : client → client) (elapsed : bool) : M (option json) :=
  registered <- send_websocket_begin target method params now_ms uuid_hex sent ;;
  modify meanwhile ;;;
  send_websocket_wait (fst registered) (snd registered) elapsed.

(** [subscribe] does not send: it hands the [send] to [asyncio.create_task]
    and returns.  (It is called from a coroutine: [create_task] needs the
    running loop.) *)
Definition subscribe (target : string) : M unit :=
  ws <- get websocket ;;
  match ws with
  | None => raise (PyException "WebSocket not connected")
  | Some ws => emit (CreateSendTask ws (JDict [("type", JStr "subscribe");
                                               ("target", JStr target)]))
  end.

(** The task that [subscribe] created, when the loop runs it: the [send],
    with its outcome [sent].  Nothing awaits the task, so what it raises
    reaches no caller. *)
Definition subscribe_send_task (ws : nat) (frame : json) (sent : option exn)
    : M unit :=
  emit (WsSend ws frame) ;;;
  external sent.

(** ** Lifecycle *)

(** [session_id] names the [aiohttp.ClientSession] that [init] creates. *)
Definition init (session_id : nat) (registration : http_outcome)
    (hs : handshake) : M unit :=
  emit (SessionOpen session_id) ;;;
  modify (set_session (Some session_id)) ;;;
  cfg <- get config ;;
  (if auto_register cfg then register registration else ret tt) ;;;
  connect_websocket hs.

(** [ws_closed] and [session_closed] are the outcomes of the two [close]
    calls, [unregistration] the reply to the DELETE. *)
Definition close (ws_closed session_closed : option exn)
    (unregistration : http_outcome) : M unit :=
  ws <- get websocket ;;
  match ws with
  | Some w =>
      emit (WsClose w) ;;;
      external ws_closed ;;;
      modify (set_websocket None)
  | None => ret tt
  end ;;;
  s <- get session ;;
  match s with
  | Some sid =>
      emit (SessionClose sid) ;;;
      external session_closed ;;;
      modify (set_session None)
  | None => ret tt
  end ;;;
  cfg <- get config ;;
  if auto_register cfg then unregister unregistration else ret tt.

(** ** Reply shapes *)

(** The dataclass [InteropMessage].  A dataclass does not check the types of
    its fields, so each holds whatever value the reply carried. *)
Record InteropMessage : Type := {
  im_id : json;
  im_target : json;
  im_method : json;
  im_params : json;
  im_priority : json;
  im_timestamp : json;
  im_status : json;
  im_result : json;
  im_error : json
}.

(** The dataclass [ModuleInfo]: no field has a default. *)
Record ModuleInfo : Type := {
  mi_name : json;
  mi_language : json;
  mi_endpoints : json;
  mi_port : json;
  mi_registered_at : json;
  mi_last_seen : json
}.

Definition InteropMessage_fields : list string :=
  ["id"; "target"; "method"; "params"; "priority"; "timestamp"; "status";
   "result"; "error"].

Definition ModuleInfo_fields : list string :=
  ["name"; "language"; "endpoints"; "port"; "registered_at"; "last_seen"].

(** A dataclass called with a dict unpacked as keywords: every keyword must
    name a field. *)
Definition kwargs_accepted (fields : list string)
    (kwargs : list (string * json)) : bool :=
  forallb (λ kv, bool_decide (kv.1 ∈ fields)) kwargs.

(** [InteropMessage] called with [msg] unpacked as keywords: [msg] must be a
    mapping, may use only field names as keys, and must give the four fields
    without a default. *)
Definition InteropMessage_init (msg : json) : exn + InteropMessage :=
  match msg with
  | JDict kwargs =>
      if kwargs_accepted InteropMessage_fields kwargs then
        match assoc "id" kwargs, assoc "target" kwargs,
              assoc "method" kwargs, assoc "params" kwargs with
        | Some i, Some t, Some m, Some p =>
            inr {| im_id := i; im_target := t; im_method := m; im_params := p;
                   im_priority := default (JInt 0) (assoc "priority" kwargs);
                   im_timestamp := default (JStr "") (assoc "timestamp" kwargs);
                   im_status := default (JStr "queued") (assoc "status" kwargs);
                   im_result := default JNull (assoc "result" kwargs);
                   im_error := default JNull (assoc "error" kwargs) |}
        | _, _, _, _ => inl (TypeError "missing required argument")
        end
      else inl (TypeError "unexpected keyword argument")
  | _ => inl (TypeError "argument after ** must be a mapping")
  end.

(** [ModuleInfo] called with [module] unpacked as keywords. *)
Definition ModuleInfo_init (module : json) : exn + ModuleInfo :=
  match module with
  | JDict kwargs =>
      if kwargs_accepted ModuleInfo_fields kwargs then
        match assoc "name" kwargs, assoc "language" kwargs,
              assoc "endpoints" kwargs, assoc "port" kwargs,
              assoc "registered_at" kwargs, assoc "last_seen" kwargs with
        | Some n, Some l, Some e, Some p, Some r, Some s =>
            inr {| mi_name := n; mi_language := l; mi_endpoints := e;
                   mi_port := p; mi_registered_at := r; mi_last_seen := s |}
        | _, _, _, _, _, _ => inl (TypeError "missing required argument")
        end
      else inl (TypeError "unexpected keyword argument")
  | _ => inl (TypeError "argument after ** must be a mapping")
  end.

Fixpoint string_chars (s : string) : list json :=
  match s with
  | EmptyString => []
  | String a s' => JStr (String a EmptyString) :: string_chars s'
  end.

(** [for x in value]: a list gives its items, a dict its keys, a string its
    characters; nothing else can be iterated. *)
Definition py_iter (value : json) : exn + list json :=
  match value with
  | JList items => inr items
  | JDict fields => inr (JStr <$> fields.*1)
  | JStr s => inr (string_chars s)
  | _ => inl (TypeError "object is not iterable")
  end.

(** [[f(x) for x in items]]: the first element that raises ends it. *)
Fixpoint comprehension {A} (f : json → exn + A) (items : list json)
    : exn + list A :=
  match items with
  | [] => inr []
  | x :: rest =>
      match f x with
      | inl e => inl e
      | inr a =>
          match comprehension f rest with
          | inl e => inl e
          | inr l => inr (a :: l)
          end
      end
  end.

(** The list comprehension over [result["queue"]] that [get_queue] returns
    from the body of the reply. *)
Definition get_queue_messages (result : json) : M (list InteropMessage) :=
  queue <- py_getitem result "queue" ;;
  items <- lift (py_iter queue) ;;
  lift (comprehension InteropMessage_init items).

(** The list comprehension over [result["modules"]] that [get_modules]
    returns from the body of the reply. *)
Definition get_modules_infos (result : json) : M (list ModuleInfo) :=
  modules <- py_getitem result "modules" ;;
  items <- lift (py_iter modules) ;;
  lift (comprehension ModuleInfo_init items).

(** [create_interop_client(config)] *)
Definition create_interop_client (cfg : option InteropConfig) : client :=
  new_client cfg.

(** Whether [old] occurs somewhere in [s]. *)
Fixpoint occurs (old s : string) : bool :=
  match s with
  | EmptyString => is_prefix old EmptyString
  | String _ s' => is_prefix old s || occurs old s'
  end.

(** * Sample runs and auxiliary definitions *)

(** Unfolds the monad so that a method body reduces on a given client. *)
Ltac run :=
  cbv [bind ret raise try_except try_except_only get modify emit print
       external lift].

Definition ok_reply (body : json) : http_outcome :=
  inr {| status := 200; json_body := inr body |}.

(** A client after [init]: registered, connection 7 open. *)
Definition sample_client : client :=
  snd (init 1 (ok_reply (JDict [("message", JStr "registered")])) (inr 7%nat)
         (new_client None)).

Definition sample_id : string := "ws_1700000000123_01234567".

(** The same client with one duplex call written to the wire and waiting. *)
Definition sample_pending : client :=
  snd (send_websocket_begin "ts-module" "ping" None 1700000000123
         "0123456789abcdef0123456789abcdef" None sample_client).

Definition after_disconnect (c : client) : client :=
  add_effect (Sleep 5) (add_effect (Print LogDisconnected) c).

Definition ws_url_of (c : client) : string :=
  str_replace "http" "ws" (server_url (config c)).

Definition lost_connection : connection :=
  {| conn_id := 7; inbound := []; conn_ending := Lost |}.

Definition healthy_connection : connection :=
  {| conn_id := 8; inbound := []; conn_ending := StillOpen |}.

(** Closes [∃ rest, trace ... = trace c ++ e :: rest] once the run is known. *)
Ltac trace_from_here :=
  eexists; simpl; rewrite <- ?app_assoc; simpl; reflexivity.

(** An answered call: its identifier, its future, the result the server
    sends for it. *)
Definition answer : Type := string * nat * json.

Definition answer_frame (a : answer) : wire :=
  Text (response_frame a.1.1 a.2).

Definition resolve (c : client) (a : answer) : client :=
  set_futures (<[a.1.2 := FResult a.2]> (futures c))
    (set_message_handlers (delete a.1.1 (message_handlers c)) c).

Definition resolve_all (answers : list answer) (c : client) : client :=
  foldl resolve c answers.

(** The calls of [answers] are all waiting in [c], under distinct
    identifiers and on distinct futures. *)
Definition in_flight (c : client) (answers : list answer) : Prop :=
  NoDup (answers.*1.*1)
  ∧ NoDup (answers.*1.*2)
  ∧ Forall (λ a, message_handlers c !! a.1.1 = Some a.1.2
                 ∧ futures c !! a.1.2 = Some FPending) answers.

(** Splits a run of a request/reply method into the cases of its reply. *)
Ltac by_reply out body key :=
  destruct out as [?|[? [?|body]]]; simpl;
  [ | case_bool_decide; simpl | case_bool_decide; simpl;
      [ | unfold py_getitem; run; destruct body; simpl;
          try match goal with
              | |- context [assoc key ?fields] => destruct (assoc key fields)
              end; simpl ] ].

(** What one handled frame, or any run of the receive loop, may do to the
    client: print, remove handlers, and complete pending futures. *)
Definition frame_step (c c' : client) : Prop :=
  config c' = config c
  ∧ session c' = session c
  ∧ websocket c' = websocket c
  ∧ message_handlers c' ⊆ message_handlers c
  ∧ length (futures c') = length (futures c)
  ∧ (∀ f st, futures c !! f = Some st → st ≠ FPending → futures c' !! f = Some st)
  ∧ ∃ printed, trace c' = (trace c ++ printed)%list.

Definition is_object (message : json) : bool :=
  match message with
  | JDict _ => true
  | _ => false
  end.

(** [message_id in self.message_handlers] is false: the identifier can be
    hashed and is no key of the table. *)
Definition id_not_registered (c : client) (message_id : json) : Prop :=
  match message_id with
  | JStr s => message_handlers c !! s = None
  | JList _ | JDict _ => False
  | _ => True
  end.

(** * Properties *)

(** ** Building blocks *)

Lemma send_websocket_begin_sent target method params now_ms uuid_hex c ws :
  websocket c = Some ws →
  send_websocket_begin target method params now_ms uuid_hex None c =
    (inr (make_message_id now_ms uuid_hex, length (futures c)),
     add_effect
       (WsSend ws (JDict [("type", JStr "call");
                          ("id", JStr (make_message_id now_ms uuid_hex));
                          ("target", JStr target);
                          ("method", JStr method);
                          ("params", params_or_empty (param_default params))]))
       (set_message_handlers
          (<[make_message_id now_ms uuid_hex := length (futures c)]>
             (message_handlers c))
          (set_futures (futures c ++ [FPending]) c))).
Proof.
  intros Hws. unfold send_websocket_begin. run. rewrite Hws. reflexivity.
Qed.

Lemma send_websocket_wait_elapsed c id f :
  futures c !! f = Some FPending →
  send_websocket_wait id f true c =
    (inl (PyException "WebSocket call timeout"),
     set_message_handlers (delete id (message_handlers c))
       (set_futures (<[f := FCancelled]> (futures c)) c)).
Proof.
  intros Hf. unfold send_websocket_wait, wait_for. run. rewrite Hf.
  rewrite decide_True by reflexivity. reflexivity.
Qed.

Lemma send_websocket_wait_suspended c id f :
  futures c !! f = Some FPending →
  send_websocket_wait id f false c = (inr None, c).
Proof.
  intros Hf. unfold send_websocket_wait, wait_for. run. rewrite Hf. reflexivity.
Qed.

Lemma send_websocket_wait_result c id f v elapsed :
  futures c !! f = Some (FResult v) →
  send_websocket_wait id f elapsed c = (inr (Some v), c).
Proof.
  intros Hf. unfold send_websocket_wait, wait_for. run. rewrite Hf. reflexivity.
Qed.

Lemma response_unregistered_dropped c id result :
  message_handlers c !! id = None →
  handle_websocket_message (response_frame id result) c = (inr tt, c).
Proof.
  intros Hid. unfold handle_websocket_message, response_frame. run. simpl.
  rewrite Hid. reflexivity.
Qed.

Lemma response_registered_resolves c id f result :
  message_handlers c !! id = Some f →
  futures c !! f = Some FPending →
  handle_websocket_message (response_frame id result) c =
    (inr tt,
     set_futures (<[f := FResult result]> (futures c))
       (set_message_handlers (delete id (message_handlers c)) c)).
Proof.
  intros Hid Hf. unfold handle_websocket_message, response_frame, set_result.
  run. simpl. rewrite Hid. simpl. rewrite Hf. reflexivity.
Qed.

Lemma error_frame_only_logged c id error :
  handle_websocket_message (error_frame id error) c =
    (inr tt, add_effect (Print (LogErrorFrame error)) c).
Proof. reflexivity. Qed.

Lemma response_object_resolves c fields id f result :
  assoc "type" fields = Some (JStr "response") →
  assoc "id" fields = Some (JStr id) →
  assoc "result" fields = Some result →
  message_handlers c !! id = Some f →
  futures c !! f = Some FPending →
  handle_websocket_message (JDict fields) c =
    (inr tt,
     set_futures (<[f := FResult result]> (futures c))
       (set_message_handlers (delete id (message_handlers c)) c)).
Proof.
  intros Ht Hi Hr Hid Hf.
  unfold handle_websocket_message, py_get, py_getitem, handler_lookup,
    set_result. run.
  rewrite Ht, Hi, Hr. simpl. rewrite Hid. simpl. rewrite Hf. reflexivity.
Qed.

Lemma response_object_dropped c fields :
  assoc "type" fields = Some (JStr "response") →
  id_not_registered c (default JNull (assoc "id" fields)) →
  handle_websocket_message (JDict fields) c = (inr tt, c).
Proof.
  intros Ht Hid.
  unfold handle_websocket_message, py_get, handler_lookup. run.
  rewrite Ht. simpl.
  destruct (default JNull (assoc "id" fields)); simpl in *; try done.
  by rewrite Hid.
Qed.

Lemma error_object_only_logged c fields error :
  assoc "type" fields = Some (JStr "error") →
  assoc "error" fields = Some error →
  handle_websocket_message (JDict fields) c =
    (inr tt, add_effect (Print (LogErrorFrame error)) c).
Proof.
  intros Ht He. unfold handle_websocket_message, py_get, py_getitem. run.
  rewrite Ht, He. reflexivity.
Qed.

(** A pending call after something that left the table and the futures as
    they were: it is still suspended, a response for its identifier
    completes it, and without one its timeout ends it. *)
Lemma pending_call_still_open c c' id f fields result :
  message_handlers c' = message_handlers c →
  futures c' = futures c →
  message_handlers c !! id = Some f →
  futures c !! f = Some FPending →
  assoc "type" fields = Some (JStr "response") →
  assoc "id" fields = Some (JStr id) →
  assoc "result" fields = Some result →
  send_websocket_wait id f false c' = (inr None, c')
  ∧ fst (send_websocket_wait id f true c')
    = inl (PyException "WebSocket call timeout")
  ∧ ∃ c'',
      handle_websocket_message (JDict fields) c' = (inr tt, c'')
      ∧ message_handlers c'' !! id = None
      ∧ ∀ elapsed, send_websocket_wait id f elapsed c'' = (inr (Some result), c'').
Proof.
  intros Hh Hfs Hid Hf Ht Hi Hr. rewrite <- Hh in Hid. rewrite <- Hfs in Hf.
  split; [by apply send_websocket_wait_suspended|].
  split; [by rewrite (send_websocket_wait_elapsed _ _ _ Hf)|].
  eexists. split; [by apply response_object_resolves|]. split.
  - simpl. apply lookup_delete_eq.
  - intros elapsed. apply send_websocket_wait_result. simpl.
    apply list_lookup_insert_eq. by eapply lookup_lt_Some.
Qed.

(** ** Timeout of a duplex call *)

(** C1, as stated, fails: the call that times out does not fail with
    [TimeoutError]; [send_websocket] catches it and raises a bare
    [Exception("WebSocket call timeout")] in its place. *)
Lemma send_websocket_timeout_is_not_TimeoutError :
  fst (send_websocket "ts-module" "ping" None 1700000000123
         "0123456789abcdef0123456789abcdef" None (λ c, c) true sample_client)
    = inl (PyException "WebSocket call timeout")
  ∧ fst (send_websocket "ts-module" "ping" None 1700000000123
           "0123456789abcdef0123456789abcdef" None (λ c, c) true sample_client)
    ≠ inl TimeoutError.
Proof. split; [reflexivity | discriminate]. Qed.

(** C1, amended: a duplex call whose frame was written and whose future is
    still pending when the ten seconds have elapsed (whatever the rest of
    the event loop did meanwhile) raises [Exception("WebSocket call
    timeout")]; its identifier is no longer in [message_handlers], its
    future is cancelled, and a response frame that then arrives for that
    identifier changes nothing and raises nothing. *)
Theorem send_websocket_timeout target method params now_ms uuid_hex meanwhile c ws :
  websocket c = Some ws →
  (∀ c1, futures c1 !! length (futures c) = Some FPending →
         futures (meanwhile c1) !! length (futures c) = Some FPending) →
  ∃ c',
    send_websocket target method params now_ms uuid_hex None meanwhile true c
      = (inl (PyException "WebSocket call timeout"), c')
    ∧ message_handlers c' !! make_message_id now_ms uuid_hex = None
    ∧ futures c' !! length (futures c) = Some FCancelled
    ∧ ∀ result,
        handle_websocket_message
          (response_frame (make_message_id now_ms uuid_hex) result) c'
        = (inr tt, c').
Proof.
  intros Hws Hmean.
  assert (Hrun : ∃ c2,
    futures c2 !! length (futures c) = Some FPending
    ∧ send_websocket target method params now_ms uuid_hex None meanwhile true c
      = send_websocket_wait (make_message_id now_ms uuid_hex)
          (length (futures c)) true c2).
  { unfold send_websocket. cbv [bind modify].
    rewrite (send_websocket_begin_sent _ _ _ _ _ _ _ Hws). cbn [fst snd].
    eexists. split; [|reflexivity].
    apply Hmean. simpl. rewrite lookup_app_r by lia. by rewrite Nat.sub_diag. }
  destruct Hrun as (c2 & Hp & ->).
  rewrite (send_websocket_wait_elapsed _ _ _ Hp).
  eexists. split; [reflexivity|]. simpl. split; [|split].
  - apply lookup_delete_eq.
  - apply list_lookup_insert_eq. by eapply lookup_lt_Some.
  - intros result. apply response_unregistered_dropped. simpl.
    apply lookup_delete_eq.
Qed.

Lemma send_websocket_timeout_witness :
  ∃ c',
    send_websocket "ts-module" "ping" None 1700000000123
      "0123456789abcdef0123456789abcdef" None (λ c, c) true sample_client
      = (inl (PyException "WebSocket call timeout"), c')
    ∧ message_handlers c' !! sample_id = None
    ∧ futures c' !! 0%nat = Some FCancelled
    ∧ ∀ result,
        handle_websocket_message (response_frame sample_id result) c'
        = (inr tt, c').
Proof.
  apply (send_websocket_timeout "ts-module" "ping" None 1700000000123
           "0123456789abcdef0123456789abcdef" (λ c, c) sample_client 7%nat).
  - reflexivity.
  - intros c1 H. exact H.
Defined.

(** ** One outcome per registered identifier *)

(** Whichever of a response and the timeout comes first removes the entry,
    and the other then has nothing to act on. *)
Lemma resolve_then_timeout c id f result :
  message_handlers c !! id = Some f →
  futures c !! f = Some FPending →
  ∃ c1,
    handle_websocket_message (response_frame id result) c = (inr tt, c1)
    ∧ message_handlers c1 !! id = None
    ∧ send_websocket_wait id f true c1 = (inr (Some result), c1).
Proof.
  intros Hid Hf. eexists. split; [by apply response_registered_resolves|].
  split.
  - simpl. apply lookup_delete_eq.
  - apply send_websocket_wait_result. simpl.
    apply list_lookup_insert_eq. by eapply lookup_lt_Some.
Qed.

Lemma timeout_then_resolve c id f result :
  futures c !! f = Some FPending →
  ∃ c1,
    send_websocket_wait id f true c = (inl (PyException "WebSocket call timeout"), c1)
    ∧ handle_websocket_message (response_frame id result) c1 = (inr tt, c1).
Proof.
  intros Hf. eexists. split; [by apply send_websocket_wait_elapsed|].
  apply response_unregistered_dropped. simpl. apply lookup_delete_eq.
Qed.

(** A [send] that raises ends the call with that exception, after the
    handler was stored: the entry stays, whatever the timer does. *)
Lemma send_websocket_send_failed target method params now_ms uuid_hex e
    meanwhile elapsed c ws :
  websocket c = Some ws →
  ∃ c',
    send_websocket target method params now_ms uuid_hex (Some e) meanwhile
      elapsed c = (inl e, c')
    ∧ message_handlers c' !! make_message_id now_ms uuid_hex
      = Some (length (futures c))
    ∧ futures c' !! length (futures c) = Some FPending.
Proof.
  intros Hws. unfold send_websocket, send_websocket_begin. run. rewrite Hws.
  eexists. split; [reflexivity|]. simpl. split.
  - apply lookup_insert_eq.
  - rewrite lookup_app_r by lia. by rewrite Nat.sub_diag.
Qed.

(** C2, the defect: a duplex call whose frame cannot be written (the socket
    is closed under it, so [websocket.send] raises [ConnectionClosed]) ends
    with that exception, yet its identifier stays in [message_handlers]: the
    handler was stored before the [send] and only the timeout path removes
    it.  The table then holds an identifier of no call in flight. *)
Theorem send_failure_leaves_handler_registered :
  message_handlers sample_client !! sample_id = None
  ∧ ∃ c',
      send_websocket "ts-module" "ping" None 1700000000123
        "0123456789abcdef0123456789abcdef" (Some ConnectionClosed) (λ c, c) true
        sample_client
        = (inl ConnectionClosed, c')
      ∧ message_handlers c' !! sample_id = Some 0%nat
      ∧ futures c' !! 0%nat = Some FPending.
Proof.
  split; [reflexivity|].
  apply (send_websocket_send_failed "ts-module" "ping" None 1700000000123
           "0123456789abcdef0123456789abcdef" ConnectionClosed (λ c, c) true
           sample_client 7%nat).
  reflexivity.
Qed.

(** ** Response and error frames *)

(** C4, as stated, fails: an error frame whose identifier is registered only
    prints; the call it names stays registered and pending. *)
Lemma error_frame_leaves_call_pending :
  message_handlers sample_pending !! sample_id = Some 0%nat
  ∧ futures sample_pending !! 0%nat = Some FPending
  ∧ ∃ c',
      handle_websocket_message (error_frame sample_id (JStr "boom")) sample_pending
        = (inr tt, c')
      ∧ message_handlers c' !! sample_id = Some 0%nat
      ∧ futures c' !! 0%nat = Some FPending
      ∧ send_websocket_wait sample_id 0 false c' = (inr None, c').
Proof. repeat split. eexists. repeat split. Qed.

(** C4, amended: a frame tagged response that carries a result, and whose
    identifier is registered with its future pending, removes the entry and
    completes the waiting call with that result.  A frame tagged error that
    carries an error field is only printed, whether or not its identifier is
    registered: the table and the futures are unchanged, so it neither fails
    nor completes any call, and a call that was pending is still
    suspended. *)
Theorem response_resolves_error_only_logs fields id f result error c :
  (assoc "type" fields = Some (JStr "response") →
   assoc "id" fields = Some (JStr id) →
   assoc "result" fields = Some result →
   message_handlers c !! id = Some f →
   futures c !! f = Some FPending →
   ∃ c1,
     handle_websocket_message (JDict fields) c = (inr tt, c1)
     ∧ message_handlers c1 = delete id (message_handlers c)
     ∧ futures c1 = <[f := FResult result]> (futures c)
     ∧ ∀ elapsed, send_websocket_wait id f elapsed c1 = (inr (Some result), c1))
  ∧ (assoc "type" fields = Some (JStr "error") →
     assoc "error" fields = Some error →
     ∃ c2,
       handle_websocket_message (JDict fields) c = (inr tt, c2)
       ∧ trace c2 = (trace c ++ [Print (LogErrorFrame error)])%list
       ∧ message_handlers c2 = message_handlers c
       ∧ futures c2 = futures c
       ∧ ∀ id' f', futures c !! f' = Some FPending →
                   send_websocket_wait id' f' false c2 = (inr None, c2)).
Proof.
  split.
  - intros Ht Hi Hr Hid Hf.
    eexists. split; [by apply response_object_resolves|]. simpl.
    repeat split. intros elapsed. apply send_websocket_wait_result. simpl.
    apply list_lookup_insert_eq. by eapply lookup_lt_Some.
  - intros Ht He.
    eexists. split; [by apply error_object_only_logged|]. repeat split.
    intros id' f' Hf'. by apply send_websocket_wait_suspended.
Qed.

Lemma response_resolves_error_only_logs_witness :
  (∃ c1,
     handle_websocket_message
       (JDict [("id", JStr sample_id); ("type", JStr "response");
               ("result", JInt 5); ("elapsed_ms", JInt 12)]) sample_pending
       = (inr tt, c1)
     ∧ message_handlers c1 = delete sample_id (message_handlers sample_pending)
     ∧ futures c1 = <[0%nat := FResult (JInt 5)]> (futures sample_pending)
     ∧ ∀ elapsed, send_websocket_wait sample_id 0 elapsed c1 = (inr (Some (JInt 5)), c1))
  ∧ (∃ c2,
     handle_websocket_message
       (JDict [("type", JStr "error"); ("error", JStr "boom")]) sample_pending
       = (inr tt, c2)
     ∧ trace c2 = (trace sample_pending ++ [Print (LogErrorFrame (JStr "boom"))])%list
     ∧ message_handlers c2 = message_handlers sample_pending
     ∧ futures c2 = futures sample_pending
     ∧ send_websocket_wait sample_id 0 false c2 = (inr None, c2)).
Proof.
  split.
  - apply (proj1 (response_resolves_error_only_logs
             [("id", JStr sample_id); ("type", JStr "response");
              ("result", JInt 5); ("elapsed_ms", JInt 12)]
             sample_id 0%nat (JInt 5) JNull sample_pending)); reflexivity.
  - destruct (proj2 (response_resolves_error_only_logs
             [("type", JStr "error"); ("error", JStr "boom")]
             sample_id 0%nat JNull (JStr "boom") sample_pending)
             eq_refl eq_refl) as (c2 & Hrun & Ht & Hh & Hf & Hwait).
    exists c2. repeat split; try assumption. apply Hwait. rewrite <- Hf.
    injection Hrun as <-. reflexivity.
Defined.

(** ** Loss of the duplex channel *)

Lemma listener_lost_attempt_failed c e :
  listener_body [] Lost (Some (inl e)) c =
    (inr Stopped,
     add_effect (Print (LogConnectFailed e))
       (add_effect (WsConnect (ws_url_of c)) (after_disconnect c))).
Proof. reflexivity. Qed.

Lemma listener_lost_attempt_succeeded c w :
  listener_body [] Lost (Some (inr w)) c =
    (inr Respawned,
     add_effect CreateListenerTask
       (add_effect (Print LogConnected)
          (set_websocket (Some w)
             (add_effect (WsConnect (ws_url_of c)) (after_disconnect c))))).
Proof. reflexivity. Qed.

Lemma listener_lost_attempt_unfinished c :
  listener_body [] Lost None c = (inr Connecting, after_disconnect c).
Proof. reflexivity. Qed.

(** C3, as stated, fails: when the connection is lost under a pending call,
    the listener prints, sleeps and reconnects; the call is not failed, it
    stays registered with its future pending. *)
Lemma connection_lost_call_not_failed :
  message_handlers sample_pending !! sample_id = Some 0%nat
  ∧ futures sample_pending !! 0%nat = Some FPending
  ∧ ∃ c',
      websocket_listener [] Lost (Some (inr 8%nat)) sample_pending
        = (inr Respawned, c')
      ∧ message_handlers c' !! sample_id = Some 0%nat
      ∧ futures c' !! 0%nat = Some FPending
      ∧ send_websocket_wait sample_id 0 false c' = (inr None, c').
Proof. repeat split. eexists. repeat split. Qed.

(** C3, amended: the loss of the connection fails no pending call: the
    listener's handling of it changes neither the handler table nor any
    future.  A call pending at that moment stays registered and suspended;
    a response frame for its identifier handled next completes it, and with
    no response it ends at its own timeout. *)
Theorem connection_lost_leaves_calls_pending c reconnect id f fields result :
  let c' := snd (listener_body [] Lost reconnect c) in
  (∃ st, fst (listener_body [] Lost reconnect c) = inr st)
  ∧ message_handlers c' = message_handlers c
  ∧ futures c' = futures c
  ∧ (message_handlers c !! id = Some f →
     futures c !! f = Some FPending →
     assoc "type" fields = Some (JStr "response") →
     assoc "id" fields = Some (JStr id) →
     assoc "result" fields = Some result →
     send_websocket_wait id f false c' = (inr None, c')
     ∧ fst (send_websocket_wait id f true c')
       = inl (PyException "WebSocket call timeout")
     ∧ ∃ c'',
         handle_websocket_message (JDict fields) c' = (inr tt, c'')
         ∧ message_handlers c'' !! id = None
         ∧ ∀ elapsed,
             send_websocket_wait id f elapsed c'' = (inr (Some result), c'')).
Proof.
  intros c'.
  assert (Hkeep : (∃ st, fst (listener_body [] Lost reconnect c) = inr st)
                  ∧ message_handlers c' = message_handlers c
                  ∧ futures c' = futures c).
  { subst c'. destruct reconnect as [[e|w]|]; (split; [by eexists|]);
      split; reflexivity. }
  destruct Hkeep as (Hrun & Hh & Hfs).
  split; [done|]. split; [done|]. split; [done|].
  intros Hid Hf Ht Hi Hr. by eapply pending_call_still_open.
Qed.

Lemma connection_lost_leaves_calls_pending_witness :
  let c' := snd (listener_body [] Lost (Some (inr 8%nat)) sample_pending) in
  send_websocket_wait sample_id 0 false c' = (inr None, c')
  ∧ fst (send_websocket_wait sample_id 0 true c')
    = inl (PyException "WebSocket call timeout")
  ∧ ∃ c'',
      handle_websocket_message (response_frame sample_id (JStr "pong")) c'
        = (inr tt, c'')
      ∧ message_handlers c'' !! sample_id = None
      ∧ ∀ elapsed,
          send_websocket_wait sample_id 0 elapsed c''
          = (inr (Some (JStr "pong")), c'').
Proof.
  apply (connection_lost_leaves_calls_pending sample_pending
           (Some (inr 8%nat)) sample_id 0%nat
           [("type", JStr "response"); ("id", JStr sample_id);
            ("result", JStr "pong")] (JStr "pong")); reflexivity.
Defined.

(** ** Reconnection *)

(** C5, as stated, fails: after a loss, one handshake that fails ends the
    reconnection for good.  Nothing retries, although the next handshake
    would have succeeded, and the client keeps the dead connection. *)
Lemma reconnect_not_retried :
  ∃ c',
    listener_chain lost_connection
      [inl (LibraryError "refused"); inr healthy_connection] sample_client
      = (inr Stopped, c')
    ∧ trace c' = (trace sample_client ++
                  [Print LogDisconnected; Sleep 5;
                   WsConnect "ws://localhost:4000";
                   Print (LogConnectFailed (LibraryError "refused"))])%list
    ∧ websocket c' = Some 7%nat.
Proof. eexists. repeat split. Qed.

Lemma bind_ret_same {A} (m : M A) (k : A → M A) c :
  (∀ a, k a = ret a) → bind m k c = m c.
Proof.
  intros Hk. unfold bind. destruct (m c) as [[e|a] c']; [reflexivity|].
  by rewrite Hk.
Qed.

(** C5, amended: when [ConnectionClosed] reaches the listener it sleeps a
    fixed 5 seconds and makes exactly one reconnection attempt.  If the
    handshake succeeds the new connection is installed and a new listener is
    started; if it fails the failure is printed and the listener ends, and
    whatever handshakes might have followed are never tried.  The attempt is
    made whether or not [close] has run: no flag is consulted. *)
Theorem reconnect_once_after_fixed_delay c e w conn later ws_closed session_closed
    unregistration :
  listener_body [] Lost (Some (inl e)) c =
    (inr Stopped,
     add_effect (Print (LogConnectFailed e))
       (add_effect (WsConnect (ws_url_of c))
          (add_effect (Sleep 5) (add_effect (Print LogDisconnected) c))))
  ∧ listener_body [] Lost (Some (inr w)) c =
    (inr Respawned,
     add_effect CreateListenerTask
       (add_effect (Print LogConnected)
          (set_websocket (Some w)
             (add_effect (WsConnect (ws_url_of c))
                (add_effect (Sleep 5) (add_effect (Print LogDisconnected) c))))))
  ∧ listener_chain conn (inl e :: later) c =
    websocket_listener (inbound conn) (conn_ending conn) (Some (inl e)) c
  ∧ websocket
      (snd (listener_body [] Lost (Some (inr w))
              (snd (close ws_closed session_closed unregistration c))))
    = Some w.
Proof.
  split; [apply listener_lost_attempt_failed|].
  split; [apply listener_lost_attempt_succeeded|].
  split.
  - cbn [listener_chain handshake_of]. apply bind_ret_same.
    intros st. by destruct st.
  - by rewrite listener_lost_attempt_succeeded.
Qed.

(** ** Closing the client *)

Lemma unregister_keeps_calls out c :
  message_handlers (snd (unregister out c)) = message_handlers c
  ∧ futures (snd (unregister out c)) = futures c.
Proof.
  unfold unregister, session_delete. run.
  destruct (session c); [|split; reflexivity].
  destruct out as [e|[st [e|body]]]; simpl; try (split; reflexivity);
    case_bool_decide; simpl; try (split; reflexivity).
  unfold py_getitem. run.
  destruct body; simpl; try (split; reflexivity).
  destruct (assoc "message" fields); split; reflexivity.
Qed.

Lemma close_keeps_calls ws_closed session_closed unregistration c :
  message_handlers (snd (close ws_closed session_closed unregistration c))
    = message_handlers c
  ∧ futures (snd (close ws_closed session_closed unregistration c)) = futures c.
Proof.
  unfold close. run.
  destruct (websocket c) as [w|]; [destruct ws_closed; [split; reflexivity|]|];
    cbn [session set_websocket add_effect];
    (destruct (session c) as [s|];
       [destruct session_closed; [split; reflexivity|]|]);
    cbn [config set_session set_websocket add_effect];
    (destruct (auto_register (config c)); [|split; reflexivity]);
    match goal with
    | |- context [unregister ?u ?x] =>
        destruct (unregister_keeps_calls u x) as [Hh Hf];
        destruct (unregister u x) as [[?|?] ?]; simpl in *; split; assumption
    end.
Qed.

(** C6, as stated, fails: [close] does not touch the pending calls.  After
    it has run the call is still registered and its future still pending,
    holding no result and no error. *)
Lemma close_leaves_call_pending :
  message_handlers sample_pending !! sample_id = Some 0%nat
  ∧ futures sample_pending !! 0%nat = Some FPending
  ∧ ∃ r c',
      close None None (ok_reply (JDict [("message", JStr "bye")])) sample_pending
        = (r, c')
      ∧ websocket c' = None ∧ session c' = None
      ∧ message_handlers c' !! sample_id = Some 0%nat
      ∧ futures c' !! 0%nat = Some FPending
      ∧ send_websocket_wait sample_id 0 false c' = (inr None, c').
Proof. repeat split. do 2 eexists. repeat split. Qed.

(** C6, amended: [close] resolves no outstanding call: whatever its steps
    come to, it changes neither the handler table nor any future.  A call
    outstanding when [close] runs stays registered and suspended; a response
    frame for its identifier handled next completes it, and with no response
    it ends at its own timeout. *)
Theorem close_leaves_calls_pending ws_closed session_closed unregistration c id f
    fields result :
  let c' := snd (close ws_closed session_closed unregistration c) in
  message_handlers c' = message_handlers c
  ∧ futures c' = futures c
  ∧ (message_handlers c !! id = Some f →
     futures c !! f = Some FPending →
     assoc "type" fields = Some (JStr "response") →
     assoc "id" fields = Some (JStr id) →
     assoc "result" fields = Some result →
     send_websocket_wait id f false c' = (inr None, c')
     ∧ fst (send_websocket_wait id f true c')
       = inl (PyException "WebSocket call timeout")
     ∧ ∃ c'',
         handle_websocket_message (JDict fields) c' = (inr tt, c'')
         ∧ message_handlers c'' !! id = None
         ∧ ∀ elapsed,
             send_websocket_wait id f elapsed c'' = (inr (Some result), c'')).
Proof.
  intros c'.
  destruct (close_keeps_calls ws_closed session_closed unregistration c)
    as [Hh Hfs].
  fold c' in Hh, Hfs. split; [done|]. split; [done|].
  intros Hid Hf Ht Hi Hr. by eapply pending_call_still_open.
Qed.

Lemma close_leaves_calls_pending_witness :
  let c' := snd (close None None (ok_reply (JDict [("message", JStr "bye")]))
                   sample_pending) in
  send_websocket_wait sample_id 0 false c' = (inr None, c')
  ∧ fst (send_websocket_wait sample_id 0 true c')
    = inl (PyException "WebSocket call timeout")
  ∧ ∃ c'',
      handle_websocket_message (response_frame sample_id (JStr "pong")) c'
        = (inr tt, c'')
      ∧ message_handlers c'' !! sample_id = None
      ∧ ∀ elapsed,
          send_websocket_wait sample_id 0 elapsed c''
          = (inr (Some (JStr "pong")), c'').
Proof.
  apply (close_leaves_calls_pending None None
           (ok_reply (JDict [("message", JStr "bye")])) sample_pending
           sample_id 0%nat
           [("type", JStr "response"); ("id", JStr sample_id);
            ("result", JStr "pong")] (JStr "pong")); reflexivity.
Defined.

(** C9, as stated, fails: the steps of [close] are not best-effort.  When
    closing the WebSocket raises, [close] raises with it; the HTTP session is
    not closed and nothing is unregistered. *)
Lemma close_stops_at_first_failure :
  ∃ c',
    close (Some (LibraryError "close failed")) None
      (ok_reply (JDict [("message", JStr "bye")])) sample_client
      = (inl (LibraryError "close failed"), c')
    ∧ trace c' = (trace sample_client ++ [WsClose 7])%list
    ∧ websocket c' = Some 7%nat
    ∧ session c' = Some 1%nat.
Proof. eexists. repeat split. Qed.

(** C9, amended: [close] closes the WebSocket, then the HTTP session, then
    calls [unregister] if and only if [auto_register] is set, in this order.
    An exception raised by a step leaves [close] at once: the later steps do
    not run. *)
Theorem close_steps_in_order c w s e session_closed unregistration :
  websocket c = Some w →
  session c = Some s →
  let closed :=
    set_session None
      (add_effect (SessionClose s)
         (set_websocket None (add_effect (WsClose w) c))) in
  close (Some e) session_closed unregistration c
    = (inl e, add_effect (WsClose w) c)
  ∧ close None (Some e) unregistration c
    = (inl e, add_effect (SessionClose s)
                (set_websocket None (add_effect (WsClose w) c)))
  ∧ close None None unregistration c
    = (if auto_register (config c) then unregister unregistration else ret tt)
        closed
  ∧ trace closed = (trace c ++ [WsClose w; SessionClose s])%list.
Proof.
  intros Hw Hs closed. unfold close. run.
  rewrite Hw. cbn [session set_websocket add_effect]. rewrite Hs.
  cbn [config set_session set_websocket add_effect].
  repeat split.
  subst closed. simpl. by rewrite <- app_assoc.
Qed.

Lemma close_steps_in_order_witness :
  let closed :=
    set_session None
      (add_effect (SessionClose 1)
         (set_websocket None (add_effect (WsClose 7) sample_client))) in
  close (Some (LibraryError "close failed")) None (inl (LibraryError "down"))
      sample_client
    = (inl (LibraryError "close failed"), add_effect (WsClose 7) sample_client)
  ∧ close None (Some (LibraryError "close failed")) (inl (LibraryError "down"))
      sample_client
    = (inl (LibraryError "close failed"),
       add_effect (SessionClose 1)
         (set_websocket None (add_effect (WsClose 7) sample_client)))
  ∧ close None None (inl (LibraryError "down")) sample_client
    = (if auto_register (config sample_client)
       then unregister (inl (LibraryError "down")) else ret tt) closed
  ∧ trace closed = (trace sample_client ++ [WsClose 7; SessionClose 1])%list.
Proof.
  apply (close_steps_in_order sample_client 7%nat 1%nat
           (LibraryError "close failed") None (inl (LibraryError "down")));
    reflexivity.
Defined.

(** ** The receive loop *)

Lemma listener_loop_unparseable text rest c :
  listener_loop (Unparseable text :: rest) c =
    listener_loop rest (add_effect (Print (LogParseFailed JSONDecodeError)) c).
Proof. reflexivity. Qed.

Lemma listener_loop_handled message rest c c' :
  handle_websocket_message message c = (inr tt, c') →
  listener_loop (Text message :: rest) c = listener_loop rest c'.
Proof.
  intros Hh. cbn [listener_loop json_loads]. run. rewrite Hh. reflexivity.
Qed.

Lemma listener_loop_raised message rest c c' e :
  handle_websocket_message message c = (inl e, c') →
  e ≠ JSONDecodeError →
  listener_loop (Text message :: rest) c = (inl e, c').
Proof.
  intros Hh He. cbn [listener_loop json_loads]. run. rewrite Hh.
  by rewrite decide_False.
Qed.

Lemma unknown_tag_logged fields c :
  py_eq_str (default JNull (assoc "type" fields)) "modules" = false →
  py_eq_str (default JNull (assoc "type" fields)) "response" = false →
  py_eq_str (default JNull (assoc "type" fields)) "error" = false →
  handle_websocket_message (JDict fields) c =
    (inr tt, add_effect (Print (LogUnknown (JDict fields))) c).
Proof.
  intros Hm Hr He. unfold handle_websocket_message, py_get. run.
  rewrite Hm, Hr, He. reflexivity.
Qed.

(** C7, as stated, fails twice over.  A frame that parses but lacks the
    field its branch reads (here a ["modules"] frame without ["data"])
    raises out of the loop; the listener prints the error and ends, and the
    response that follows is never handled.  And a response frame with an
    unknown identifier is dropped without being logged. *)
Lemma one_frame_ends_listener :
  (∃ c',
     websocket_listener
       [Text (JDict [("type", JStr "modules")]);
        Text (response_frame sample_id (JInt 5))]
       StillOpen None sample_pending
       = (inr Stopped, c')
     ∧ trace c' = (trace sample_pending ++
                   [Print (LogListenerError (KeyError "data"))])%list
     ∧ futures c' !! 0%nat = Some FPending)
  ∧ listener_loop [Text (response_frame "ws_0_unknown" (JInt 5))] sample_pending
    = (inr tt, sample_pending).
Proof. split; [eexists; repeat split | reflexivity]. Qed.

(** C7, amended: a frame on which [json.loads] raises [JSONDecodeError] is
    logged and dropped; a frame that parses to an object whose ["type"] is
    none of ["modules"], ["response"] and ["error"] is logged and dropped; a
    frame that parses to an object tagged ["response"] whose ["id"] is
    absent or [null], a number or a boolean, or a string that is not
    registered, is dropped without a log line.  In each case the loop goes
    on with the frames that follow. *)
Theorem listener_drops_and_continues text fields rest c :
  listener_loop (Unparseable text :: rest) c =
    listener_loop rest (add_effect (Print (LogParseFailed JSONDecodeError)) c)
  ∧ (py_eq_str (default JNull (assoc "type" fields)) "modules" = false →
     py_eq_str (default JNull (assoc "type" fields)) "response" = false →
     py_eq_str (default JNull (assoc "type" fields)) "error" = false →
     listener_loop (Text (JDict fields) :: rest) c =
       listener_loop rest (add_effect (Print (LogUnknown (JDict fields))) c))
  ∧ (assoc "type" fields = Some (JStr "response") →
     id_not_registered c (default JNull (assoc "id" fields)) →
     listener_loop (Text (JDict fields) :: rest) c = listener_loop rest c).
Proof.
  split; [apply listener_loop_unparseable|]. split.
  - intros Hm Hr He. apply listener_loop_handled. by apply unknown_tag_logged.
  - intros Ht Hid. apply listener_loop_handled.
    by apply response_object_dropped.
Qed.

Lemma listener_drops_and_continues_witness :
  let rest := [Text (response_frame sample_id (JInt 5))] in
  let broadcast := [("type", JStr "broadcast"); ("data", JInt 1)] in
  let stale := [("result", JInt 9); ("type", JStr "response");
                ("id", JStr "ws_0_unknown")] in
  let anonymous := [("type", JStr "response"); ("result", JInt 9)] in
  listener_loop (Unparseable "{oops" :: rest) sample_pending =
    listener_loop rest
      (add_effect (Print (LogParseFailed JSONDecodeError)) sample_pending)
  ∧ listener_loop (Text (JDict broadcast) :: rest) sample_pending =
    listener_loop rest
      (add_effect (Print (LogUnknown (JDict broadcast))) sample_pending)
  ∧ listener_loop (Text (JDict stale) :: rest) sample_pending =
    listener_loop rest sample_pending
  ∧ listener_loop (Text (JDict anonymous) :: rest) sample_pending =
    listener_loop rest sample_pending.
Proof.
  split; [|split; [|split]].
  - apply (proj1 (listener_drops_and_continues "{oops" []
                    [Text (response_frame sample_id (JInt 5))] sample_pending)).
  - apply (proj1 (proj2 (listener_drops_and_continues ""
                    [("type", JStr "broadcast"); ("data", JInt 1)]
                    [Text (response_frame sample_id (JInt 5))] sample_pending)));
      reflexivity.
  - apply (proj2 (proj2 (listener_drops_and_continues ""
                    [("result", JInt 9); ("type", JStr "response");
                     ("id", JStr "ws_0_unknown")]
                    [Text (response_frame sample_id (JInt 5))] sample_pending)));
      [reflexivity | vm_compute; reflexivity].
  - apply (proj2 (proj2 (listener_drops_and_continues ""
                    [("type", JStr "response"); ("result", JInt 9)]
                    [Text (response_frame sample_id (JInt 5))] sample_pending)));
      [reflexivity | exact I].
Defined.

(** ** Opening the client *)

Lemma connect_websocket_returns hs c :
  fst (connect_websocket hs c) = inr tt.
Proof. by destruct hs. Qed.

Lemma connect_websocket_failed e c :
  connect_websocket (inl e) c =
    (inr tt, add_effect (Print (LogConnectFailed e))
               (add_effect (WsConnect (ws_url_of c)) c)).
Proof. reflexivity. Qed.

(** C8, as stated, fails: [init] does not fail when the handshake does.
    [connect_websocket] prints the error and returns, so [init] returns
    normally with [websocket] still [None]. *)
Lemma init_survives_failed_handshake :
  ∃ c',
    init 1 (ok_reply (JDict [("message", JStr "registered")]))
      (inl (LibraryError "refused")) (new_client None)
      = (inr tt, c')
    ∧ websocket c' = None
    ∧ session c' = Some 1%nat
    ∧ last (trace c') = Some (Print (LogConnectFailed (LibraryError "refused"))).
Proof. eexists. split; [by cbv|]. repeat split. Qed.

Lemma register_keeps_channels out c :
  websocket (snd (register out c)) = websocket c
  ∧ session (snd (register out c)) = session c.
Proof.
  unfold register, session_post. run.
  destruct (session c) eqn:Hs; [|done].
  destruct out as [e|[st [e|body]]]; simpl; try done;
    case_bool_decide; simpl; try done.
  unfold py_getitem. run.
  destruct body; simpl; try done.
  by destruct (assoc "message" fields).
Qed.

Lemma call_ignores_websocket target method params out w c :
  fst (call target method params out (set_websocket w c))
    = fst (call target method params out c).
Proof.
  unfold call, session_post. run. cbn [session config set_websocket].
  destruct (session c); [|reflexivity].
  destruct out as [e|[st [e|body]]]; simpl; try done;
    case_bool_decide; simpl; try done.
  unfold py_getitem. run.
  destruct body; simpl; try done.
  by destruct (assoc "result" fields).
Qed.

Lemma send_ignores_websocket target method params priority out w c :
  fst (send target method params priority out (set_websocket w c))
    = fst (send target method params priority out c).
Proof.
  unfold send, session_post. run. cbn [session config set_websocket].
  destruct (session c); [|reflexivity].
  destruct out as [e|[st [e|body]]]; simpl; try done;
    case_bool_decide; simpl; try done.
  unfold py_getitem. run.
  destruct body; simpl; try done.
  by destruct (assoc "messageId" fields).
Qed.

(** C8, amended: whether [init] returns or raises does not depend on the
    handshake: it raises exactly when the registration it performs raises.
    After a failed handshake [websocket] is as before and the HTTP session
    is open, and what [call] and [send] come to does not depend on
    [websocket] at all: their failures are per call. *)
Theorem init_outcome_ignores_handshake session_id registration hs hs' e c w
    target method params priority out :
  fst (init session_id registration hs c)
    = fst (init session_id registration hs' c)
  ∧ fst (init session_id registration hs c)
    = fst ((if auto_register (config c) then register registration else ret tt)
             (set_session (Some session_id)
                (add_effect (SessionOpen session_id) c)))
  ∧ websocket (snd (init session_id registration (inl e) c)) = websocket c
  ∧ session (snd (init session_id registration hs c)) = Some session_id
  ∧ fst (call target method params out (set_websocket w c))
    = fst (call target method params out c)
  ∧ fst (send target method params priority out (set_websocket w c))
    = fst (send target method params priority out c).
Proof.
  assert (Hinit : ∀ h,
    init session_id registration h c =
      match (if auto_register (config c) then register registration else ret tt)
              (set_session (Some session_id)
                 (add_effect (SessionOpen session_id) c)) with
      | (inr _, c1) => connect_websocket h c1
      | (inl err, c1) => (inl err, c1)
      end).
  { intros h. unfold init. run.
    cbn [config set_session add_effect]. reflexivity. }
  pose proof (register_keeps_channels registration
                (set_session (Some session_id)
                   (add_effect (SessionOpen session_id) c))) as [Hw Hs].
  assert (Hfst : ∀ h, fst (init session_id registration h c)
    = fst ((if auto_register (config c) then register registration else ret tt)
             (set_session (Some session_id)
                (add_effect (SessionOpen session_id) c)))).
  { intros h. rewrite Hinit.
    destruct (auto_register (config c)).
    - destruct (register registration _) as [[err|[]] c1]; [reflexivity|].
      apply connect_websocket_returns.
    - apply connect_websocket_returns. }
  split; [by rewrite !Hfst|]. split; [apply Hfst|].
  split; [|split; [|split]].
  - rewrite Hinit. destruct (auto_register (config c)).
    + destruct (register registration _) as [[err|[]] c1]; simpl in *; done.
    + reflexivity.
  - rewrite Hinit. destruct (auto_register (config c)).
    + destruct (register registration _) as [[err|[]] c1]; simpl in *;
        [done|]. by destruct hs.
    + by destruct hs.
  - apply call_ignores_websocket.
  - apply send_ignores_websocket.
Qed.

(** ** Default parameters *)

(** C10: for [call], [send] and [send_websocket], leaving [params] out or
    passing [None] is the same as passing the empty dictionary, and the body
    or frame then written carries ["params": {}]. *)
Theorem params_default_is_empty_dict target method priority now_ms uuid_hex sent
    meanwhile elapsed out c s w :
  (call target method None out = call target method (Some (JDict [])) out
   ∧ call target method (Some JNull) out = call target method (Some (JDict [])) out)
  ∧ (send target method None priority out
       = send target method (Some (JDict [])) priority out
     ∧ send target method (Some JNull) priority out
       = send target method (Some (JDict [])) priority out)
  ∧ (send_websocket target method None now_ms uuid_hex sent meanwhile elapsed
       = send_websocket target method (Some (JDict [])) now_ms uuid_hex sent
           meanwhile elapsed
     ∧ send_websocket target method (Some JNull) now_ms uuid_hex sent meanwhile
         elapsed
       = send_websocket target method (Some (JDict [])) now_ms uuid_hex sent
           meanwhile elapsed)
  ∧ (∃ rest,
       trace (snd (call target method None out (set_session (Some s) c)))
       = (trace c ++
          HttpPost (server_url (config c) +:+ "/rpc")
            (JDict [("target", JStr target); ("method", JStr method);
                    ("params", JDict [])]) :: rest)%list)
  ∧ (∃ rest,
       trace (snd (send target method None priority out (set_session (Some s) c)))
       = (trace c ++
          HttpPost (server_url (config c) +:+ "/queue")
            (JDict [("target", JStr target); ("method", JStr method);
                    ("params", JDict []); ("priority", JInt priority)])
          :: rest)%list)
  ∧ (∃ rest,
       trace (snd (send_websocket_begin target method None now_ms uuid_hex sent
                     (set_websocket (Some w) c)))
       = (trace c ++
          WsSend w
            (JDict [("type", JStr "call");
                    ("id", JStr (make_message_id now_ms uuid_hex));
                    ("target", JStr target); ("method", JStr method);
                    ("params", JDict [])]) :: rest)%list).
Proof.
  split; [by split|]. split; [by split|]. split; [by split|].
  split; [|split].
  - unfold call, session_post. run. cbn [session config set_session].
    destruct out as [e|[st [e|body]]]; simpl; try trace_from_here;
      case_bool_decide; simpl; try trace_from_here.
    unfold py_getitem. run.
    destruct body; simpl; try trace_from_here.
    destruct (assoc "result" fields); trace_from_here.
  - unfold send, session_post. run. cbn [session config set_session].
    destruct out as [e|[st [e|body]]]; simpl; try trace_from_here;
      case_bool_decide; simpl; try trace_from_here.
    unfold py_getitem. run.
    destruct body; simpl; try trace_from_here.
    destruct (assoc "messageId" fields); trace_from_here.
  - unfold send_websocket_begin. run. cbn [websocket set_websocket].
    destruct sent; trace_from_here.
Qed.

(** ** Concurrent calls answered in any order *)

Lemma in_flight_tail c a rest :
  in_flight c (a :: rest) → in_flight (resolve c a) rest.
Proof.
  intros (Hid & Hf & Hall). rewrite !fmap_cons in Hid, Hf.
  apply NoDup_cons in Hid as [Hid1 Hid], Hf as [Hf1 Hf].
  apply Forall_cons in Hall as [_ Hall].
  split; [done|]. split; [done|].
  apply Forall_forall. intros b Hb.
  rewrite Forall_forall in Hall. destruct (Hall b Hb) as [Hbh Hbf]. simpl.
  assert (b.1.1 ≠ a.1.1).
  { intros Heq. apply Hid1. rewrite <- Heq.
    apply list_elem_of_fmap. exists b.1. split; [done|].
    apply list_elem_of_fmap. by exists b. }
  assert (a.1.2 ≠ b.1.2).
  { intros Heq. apply Hf1. rewrite Heq.
    apply list_elem_of_fmap. exists b.1. split; [done|].
    apply list_elem_of_fmap. by exists b. }
  split.
  - by rewrite lookup_delete_ne.
  - by rewrite list_lookup_insert_ne.
Qed.

Lemma listener_loop_resolves answers c :
  in_flight c answers →
  listener_loop (answer_frame <$> answers) c = (inr tt, resolve_all answers c).
Proof.
  revert c. induction answers as [|a rest IH]; intros c Hin; [reflexivity|].
  rewrite fmap_cons. unfold answer_frame at 1.
  pose proof Hin as (_ & _ & Hall). apply Forall_cons in Hall as [[Hh Hf] _].
  erewrite listener_loop_handled
    by (by apply response_registered_resolves).
  apply (IH (resolve c a)). by apply in_flight_tail.
Qed.

Lemma resolve_all_other_handler answers c id :
  id ∉ answers.*1.*1 →
  message_handlers (resolve_all answers c) !! id = message_handlers c !! id.
Proof.
  revert c. induction answers as [|a rest IH]; intros c Hid; [reflexivity|].
  rewrite !fmap_cons in Hid. apply not_elem_of_cons in Hid as [Hne Hid].
  cbn [resolve_all foldl]. fold (resolve_all rest (resolve c a)).
  rewrite IH by done. simpl. by rewrite lookup_delete_ne.
Qed.

Lemma resolve_all_other_future answers c f :
  f ∉ answers.*1.*2 →
  futures (resolve_all answers c) !! f = futures c !! f.
Proof.
  revert c. induction answers as [|a rest IH]; intros c Hf; [reflexivity|].
  rewrite !fmap_cons in Hf. apply not_elem_of_cons in Hf as [Hne Hf].
  cbn [resolve_all foldl]. fold (resolve_all rest (resolve c a)).
  rewrite IH by done. simpl. by rewrite list_lookup_insert_ne.
Qed.

Lemma resolve_all_own_result answers c a :
  in_flight c answers →
  a ∈ answers →
  message_handlers (resolve_all answers c) !! a.1.1 = None
  ∧ futures (resolve_all answers c) !! a.1.2 = Some (FResult a.2).
Proof.
  revert c. induction answers as [|b rest IH]; intros c Hin Ha.
  { by apply elem_of_nil in Ha. }
  cbn [resolve_all foldl]. fold (resolve_all rest (resolve c b)).
  apply elem_of_cons in Ha as [->|Ha].
  - destruct Hin as (Hid & Hf & Hall). rewrite !fmap_cons in Hid, Hf.
    apply NoDup_cons in Hid as [Hid1 _], Hf as [Hf1 _].
    apply Forall_cons in Hall as [[_ Hp] _].
    rewrite resolve_all_other_handler, resolve_all_other_future by done.
    simpl. split; [apply lookup_delete_eq|].
    apply list_lookup_insert_eq. by eapply lookup_lt_Some.
  - apply IH; [by apply in_flight_tail | done].
Qed.

Lemma in_flight_permutation c answers arrival :
  arrival ≡ₚ answers → in_flight c answers → in_flight c arrival.
Proof.
  intros Hperm (Hid & Hf & Hall). split; [|split].
  - by rewrite Hperm.
  - by rewrite Hperm.
  - by rewrite Hperm.
Qed.

(** Any number of calls in flight under distinct identifiers, answered in
    any order of arrival: the loop handles every frame, and each call
    returns the result of the frame that carries its own identifier, its
    entry gone from the table. *)
Lemma concurrent_calls_resolve_in_any_order c answers arrival a elapsed :
  in_flight c answers →
  arrival ≡ₚ answers →
  a ∈ answers →
  ∃ c',
    listener_loop (answer_frame <$> arrival) c = (inr tt, c')
    ∧ message_handlers c' !! a.1.1 = None
    ∧ send_websocket_wait a.1.1 a.1.2 elapsed c' = (inr (Some a.2), c').
Proof.
  intros Hin Hperm Ha.
  pose proof (in_flight_permutation _ _ _ Hperm Hin) as Hin'.
  assert (Ha' : a ∈ arrival) by (by rewrite Hperm).
  destruct (resolve_all_own_result _ _ _ Hin' Ha') as [Hh Hf].
  exists (resolve_all arrival c). split; [by apply listener_loop_resolves|].
  split; [done|]. by apply send_websocket_wait_result.
Qed.

Lemma concurrent_calls_resolve_in_any_order_example :
  let c := snd (send_websocket_begin "go-module" "saveData" None 1700000000124
                  "fedcba9876543210fedcba9876543210" None sample_pending) in
  let r := listener_loop
             [Text (response_frame "ws_1700000000124_fedcba98" (JStr "saved"));
              Text (response_frame sample_id (JStr "pong"))] c in
  fst r = inr tt
  ∧ fst (send_websocket_wait sample_id 0 true (snd r)) = inr (Some (JStr "pong"))
  ∧ fst (send_websocket_wait "ws_1700000000124_fedcba98" 1 true (snd r))
    = inr (Some (JStr "saved"))
  ∧ message_handlers (snd r) = ∅.
Proof. vm_compute. repeat split. Qed.

(** ** Request/reply operations *)

(** X1: whenever [call], [send], [register] or [unregister] raises, the
    exception it raises is the one it printed last; when it returns, it has
    printed no failure, and its trace is the request followed by at most its
    success line. *)
Theorem request_failures_printed_then_raised target method params priority out c :
  match call target method params out c with
  | (inl e, c') => last (trace c') = Some (Print (LogCallFailed target method e))
  | (inr _, c') =>
      ∃ body, trace c' =
        (trace c ++ [HttpPost (server_url (config c) +:+ "/rpc") body])%list
  end
  ∧ match send target method params priority out c with
    | (inl e, c') => last (trace c') = Some (Print (LogSendFailed target method e))
    | (inr id, c') =>
        ∃ body, trace c' =
          (trace c ++ [HttpPost (server_url (config c) +:+ "/queue") body;
                       Print (LogQueued id target method)])%list
    end
  ∧ match register out c with
    | (inl e, c') => last (trace c') = Some (Print (LogRegistrationFailed e))
    | (inr _, c') =>
        ∃ body message, trace c' =
          (trace c ++ [HttpPost (server_url (config c) +:+ "/register") body;
                       Print (LogRegistered message)])%list
    end
  ∧ match unregister out c with
    | (inl e, c') => last (trace c') = Some (Print (LogUnregistrationFailed e))
    | (inr _, c') =>
        ∃ message, trace c' =
          (trace c ++ [HttpDelete (server_url (config c) +:+ "/register/"
                                   +:+ module_name (config c));
                       Print (LogUnregistered message)])%list
    end.
Proof.
  split; [|split; [|split]].
  - unfold call, session_post. run. destruct (session c); simpl;
      [|apply last_snoc].
    by_reply out body "result"; try apply last_snoc. by eexists.
  - unfold send, session_post. run. destruct (session c); simpl;
      [|apply last_snoc].
    by_reply out body "messageId"; try apply last_snoc.
    eexists. by rewrite <- app_assoc.
  - unfold register, session_post. run. destruct (session c); simpl;
      [|apply last_snoc].
    by_reply out body "message"; try apply last_snoc.
    do 2 eexists. by rewrite <- app_assoc.
  - unfold unregister, session_delete. run. destruct (session c); simpl;
      [|apply last_snoc].
    by_reply out body "message"; try apply last_snoc.
    eexists. by rewrite <- app_assoc.
Qed.

(** X2: on a reply with status 200 whose body is an object, [call] returns
    the value under ["result"] and [send] the value under ["messageId"],
    having written one POST whose body carries the arguments; when the key
    is missing they raise [KeyError] for it. *)
Theorem call_and_send_read_the_reply target method params priority fields c s :
  session c = Some s →
  let rpc := HttpPost (server_url (config c) +:+ "/rpc")
               (JDict [("target", JStr target); ("method", JStr method);
                       ("params", params_or_empty (param_default params))]) in
  let queue := HttpPost (server_url (config c) +:+ "/queue")
                 (JDict [("target", JStr target); ("method", JStr method);
                         ("params", params_or_empty (param_default params));
                         ("priority", JInt priority)]) in
  call target method params (ok_reply (JDict fields)) c =
    match assoc "result" fields with
    | Some v => (inr v, add_effect rpc c)
    | None =>
        (inl (KeyError "result"),
         add_effect (Print (LogCallFailed target method (KeyError "result")))
           (add_effect rpc c))
    end
  ∧ send target method params priority (ok_reply (JDict fields)) c =
    match assoc "messageId" fields with
    | Some id =>
        (inr id, add_effect (Print (LogQueued id target method))
                   (add_effect queue c))
    | None =>
        (inl (KeyError "messageId"),
         add_effect (Print (LogSendFailed target method (KeyError "messageId")))
           (add_effect queue c))
    end.
Proof.
  intros Hs rpc queue. split.
  - unfold call, session_post, py_getitem, ok_reply. run. rewrite Hs. simpl.
    by destruct (assoc "result" fields).
  - unfold send, session_post, py_getitem, ok_reply. run. rewrite Hs. simpl.
    by destruct (assoc "messageId" fields).
Qed.

Lemma call_and_send_read_the_reply_witness :
  call "go-module" "saveData" None
    (ok_reply (JDict [("result", JDict [("id", JInt 1)])])) sample_client
    = (inr (JDict [("id", JInt 1)]),
       add_effect
         (HttpPost "http://localhost:4000/rpc"
            (JDict [("target", JStr "go-module"); ("method", JStr "saveData");
                    ("params", JDict [])])) sample_client)
  ∧ send "go-module" "saveData" None 3
      (ok_reply (JDict [("result", JDict [("id", JInt 1)])])) sample_client
    = (inl (KeyError "messageId"),
       add_effect
         (Print (LogSendFailed "go-module" "saveData" (KeyError "messageId")))
         (add_effect
            (HttpPost "http://localhost:4000/queue"
               (JDict [("target", JStr "go-module"); ("method", JStr "saveData");
                       ("params", JDict []); ("priority", JInt 3)]))
            sample_client)).
Proof.
  apply (call_and_send_read_the_reply "go-module" "saveData" None 3
           [("result", JDict [("id", JInt 1)])] sample_client 1%nat).
  reflexivity.
Defined.

(** X3: a reply whose status is not 200 makes [call] raise
    [Exception("RPC call failed: <status>")], whatever the body of the reply
    holds; the body is not read. *)
Theorem call_rejects_other_status target method params st body c s :
  session c = Some s →
  st ≠ 200 →
  fst (call target method params (inr {| status := st; json_body := body |}) c)
    = inl (PyException ("RPC call failed: " +:+ pretty st)).
Proof.
  intros Hs Hst. unfold call, session_post. run. rewrite Hs. simpl.
  by rewrite bool_decide_true.
Qed.

Lemma call_rejects_other_status_witness :
  fst (call "go-module" "saveData" None
         (inr {| status := 500;
                 json_body := inr (JDict [("result", JInt 1)]) |})
         sample_client)
    = inl (PyException "RPC call failed: 500").
Proof.
  apply (call_rejects_other_status "go-module" "saveData" None 500
           (inr (JDict [("result", JInt 1)])) sample_client 1%nat).
  - reflexivity.
  - discriminate.
Defined.

(** X4: before [init] has run (and again after [close]) the HTTP session is
    [None]: [call], [send], [register] and [unregister] then raise
    [AttributeError] and write no request. *)
Theorem requests_without_session target method params priority out c :
  session c = None →
  call target method params out c =
    (inl (AttributeError "NoneType" "post"),
     add_effect (Print (LogCallFailed target method
                          (AttributeError "NoneType" "post"))) c)
  ∧ send target method params priority out c =
    (inl (AttributeError "NoneType" "post"),
     add_effect (Print (LogSendFailed target method
                          (AttributeError "NoneType" "post"))) c)
  ∧ register out c =
    (inl (AttributeError "NoneType" "post"),
     add_effect (Print (LogRegistrationFailed
                          (AttributeError "NoneType" "post"))) c)
  ∧ unregister out c =
    (inl (AttributeError "NoneType" "delete"),
     add_effect (Print (LogUnregistrationFailed
                          (AttributeError "NoneType" "delete"))) c).
Proof.
  intros Hs. unfold call, send, register, unregister, session_post,
    session_delete. run. rewrite Hs. repeat split.
Qed.

Lemma requests_without_session_witness :
  let c := create_interop_client None in
  let out := ok_reply (JDict [("result", JInt 1)]) in
  call "go-module" "saveData" None out c =
    (inl (AttributeError "NoneType" "post"),
     add_effect (Print (LogCallFailed "go-module" "saveData"
                          (AttributeError "NoneType" "post"))) c)
  ∧ send "go-module" "saveData" None 0 out c =
    (inl (AttributeError "NoneType" "post"),
     add_effect (Print (LogSendFailed "go-module" "saveData"
                          (AttributeError "NoneType" "post"))) c)
  ∧ register out c =
    (inl (AttributeError "NoneType" "post"),
     add_effect (Print (LogRegistrationFailed
                          (AttributeError "NoneType" "post"))) c)
  ∧ unregister out c =
    (inl (AttributeError "NoneType" "delete"),
     add_effect (Print (LogUnregistrationFailed
                          (AttributeError "NoneType" "delete"))) c).
Proof.
  apply (requests_without_session "go-module" "saveData" None 0
           (ok_reply (JDict [("result", JInt 1)])) (create_interop_client None)).
  reflexivity.
Defined.

(** ** Lifecycle *)

(** X5: with [auto_register] set (the default) [close] always raises.  When
    both channels close cleanly the exception is the [AttributeError] of
    [unregister], which runs after [self.session] was set to [None]; so no
    DELETE is ever written, and the module is never unregistered. *)
Theorem close_always_raises_with_auto_register ws_closed session_closed
    unregistration c :
  auto_register (config c) = true →
  fst (close None None unregistration c) = inl (AttributeError "NoneType" "delete")
  ∧ (∃ e, fst (close ws_closed session_closed unregistration c) = inl e)
  ∧ ∀ url,
      HttpDelete url ∈ trace (snd (close ws_closed session_closed unregistration c)) →
      HttpDelete url ∈ trace c.
Proof.
  intros Hauto. unfold close, unregister, session_delete. run.
  destruct c as [cfg s w h r fs tr]. simpl in Hauto.
  split; [|split].
  - destruct w, s; simpl; rewrite Hauto; reflexivity.
  - destruct w, ws_closed, s, session_closed; simpl; rewrite ?Hauto; simpl;
      eauto.
  - intros url.
    destruct w, ws_closed, s, session_closed; simpl; rewrite ?Hauto; simpl;
      rewrite ?elem_of_app, ?list_elem_of_singleton; intuition congruence.
Qed.

Lemma close_always_raises_with_auto_register_witness :
  let bye := ok_reply (JDict [("message", JStr "bye")]) in
  fst (close None None bye sample_client) = inl (AttributeError "NoneType" "delete")
  ∧ (∃ e, fst (close None None bye sample_client) = inl e)
  ∧ ∀ url,
      HttpDelete url ∈ trace (snd (close None None bye sample_client)) →
      HttpDelete url ∈ trace sample_client.
Proof.
  apply (close_always_raises_with_auto_register None None
           (ok_reply (JDict [("message", JStr "bye")])) sample_client).
  reflexivity.
Defined.

(** X6: when the registration is refused (a status other than 200) [init]
    raises [Exception("Registration failed: <status>")] before any WebSocket
    connection is tried; the HTTP session it opened stays open. *)
Theorem init_stops_at_refused_registration session_id st body hs c :
  auto_register (config c) = true →
  st ≠ 200 →
  ∃ c' request,
    init session_id (inr {| status := st; json_body := body |}) hs c
      = (inl (PyException ("Registration failed: " +:+ pretty st)), c')
    ∧ trace c' =
      (trace c ++
       [SessionOpen session_id;
        HttpPost (server_url (config c) +:+ "/register") request;
        Print (LogRegistrationFailed
                 (PyException ("Registration failed: " +:+ pretty st)))])%list
    ∧ websocket c' = websocket c
    ∧ session c' = Some session_id.
Proof.
  intros Hauto Hst. unfold init, register, session_post. run. simpl.
  rewrite Hauto. simpl. rewrite bool_decide_true by done. simpl.
  do 2 eexists. split; [reflexivity|]. simpl. rewrite <- !app_assoc.
  repeat split.
Qed.

Lemma init_stops_at_refused_registration_witness :
  ∃ c' request,
    init 1 (inr {| status := 503; json_body := inl JSONDecodeError |})
      (inr 7%nat) (create_interop_client None)
      = (inl (PyException "Registration failed: 503"), c')
    ∧ trace c' =
      (trace (create_interop_client None) ++
       [SessionOpen 1;
        HttpPost "http://localhost:4000/register" request;
        Print (LogRegistrationFailed (PyException "Registration failed: 503"))])%list
    ∧ websocket c' = None
    ∧ session c' = Some 1%nat.
Proof.
  apply (init_stops_at_refused_registration 1 503 (inl JSONDecodeError)
           (inr 7%nat) (create_interop_client None)).
  - reflexivity.
  - discriminate.
Defined.

(** X7: with [auto_register] off, [init] writes no HTTP request at all: it
    opens the session and goes straight to the handshake. *)
Theorem init_without_auto_register session_id registration hs c :
  auto_register (config c) = false →
  fst (init session_id registration hs c) = inr tt
  ∧ trace (snd (init session_id registration hs c)) =
    (trace c ++
     SessionOpen session_id :: WsConnect (ws_url_of c) ::
     match hs with
     | inl e => [Print (LogConnectFailed e)]
     | inr _ => [Print LogConnected; CreateListenerTask]
     end)%list
  ∧ websocket (snd (init session_id registration hs c)) =
    match hs with
    | inl _ => websocket c
    | inr w => Some w
    end.
Proof.
  intros Hauto. unfold init, connect_websocket. run. simpl. rewrite Hauto.
  destruct hs; simpl; rewrite <- !app_assoc; repeat split.
Qed.

Lemma init_without_auto_register_witness :
  let cfg := {| server_url := "https://broker.example:4000";
                module_name := "m"; language := "python"; port := Some 5000;
                auto_register := false |} in
  let c := create_interop_client (Some cfg) in
  let reg := inl (LibraryError "unused") in
  fst (init 1 reg (inr 7%nat) c) = inr tt
  ∧ trace (snd (init 1 reg (inr 7%nat) c)) =
    (trace c ++
     SessionOpen 1 :: WsConnect (ws_url_of c) ::
     [Print LogConnected; CreateListenerTask])%list
  ∧ websocket (snd (init 1 reg (inr 7%nat) c)) = Some 7%nat.
Proof.
  apply (init_without_auto_register 1 (inl (LibraryError "unused")) (inr 7%nat)
           (create_interop_client
              (Some {| server_url := "https://broker.example:4000";
                       module_name := "m"; language := "python";
                       port := Some 5000; auto_register := false |}))).
  reflexivity.
Defined.

(** ** What handling inbound frames can change *)

Lemma frame_step_refl c : frame_step c c.
Proof. repeat split; try done. exists []. by rewrite app_nil_r. Qed.

Lemma frame_step_trans c1 c2 c3 :
  frame_step c1 c2 → frame_step c2 c3 → frame_step c1 c3.
Proof.
  intros (Hc & Hs & Hw & Hh & Hl & Hf & p & Ht)
         (Hc' & Hs' & Hw' & Hh' & Hl' & Hf' & p' & Ht').
  repeat split; try congruence.
  - by etrans.
  - intros f st Hst Hne. apply Hf'; [by apply Hf | done].
  - exists (p ++ p')%list. by rewrite Ht', Ht, app_assoc.
Qed.

Lemma frame_step_print c l : frame_step c (add_effect (Print l) c).
Proof. repeat split; try done. by eexists. Qed.

Lemma handle_websocket_message_frame_step message c :
  frame_step c (snd (handle_websocket_message message c)).
Proof.
  unfold handle_websocket_message, py_get, py_getitem, handler_lookup,
    set_result. run.
  destruct message as [| | | | |fields]; simpl; try apply frame_step_refl.
  destruct (py_eq_str _ "modules"); simpl.
  { destruct (assoc "data" fields); simpl;
      [apply frame_step_print | apply frame_step_refl]. }
  destruct (py_eq_str _ "response"); simpl.
  { destruct (default JNull (assoc "id" fields)) as [| | |id| |]; simpl;
      try apply frame_step_refl.
    destruct (message_handlers c !! id) as [f|] eqn:Hid; simpl;
      [|apply frame_step_refl].
    assert (Hdel : frame_step c
              (set_message_handlers (delete id (message_handlers c)) c)).
    { repeat split; simpl; try done.
      - apply delete_subseteq.
      - exists []. by rewrite app_nil_r. }
    destruct (assoc "result" fields) as [v|]; simpl; [|done].
    destruct (futures c !! f) as [[]|] eqn:Hf; simpl; try done.
    repeat split; simpl; try done.
    - apply delete_subseteq.
    - apply length_insert.
    - intros f' st Hst Hne. rewrite list_lookup_insert_ne; [done|].
      intros ->. congruence.
    - exists []. by rewrite app_nil_r. }
  destruct (py_eq_str _ "error"); simpl.
  { destruct (assoc "error" fields); simpl;
      [apply frame_step_print | apply frame_step_refl]. }
  apply frame_step_print.
Qed.

Lemma handle_websocket_message_raises message c e :
  fst (handle_websocket_message message c) = inl e →
  e ≠ JSONDecodeError ∧ e ≠ ConnectionClosed.
Proof.
  unfold handle_websocket_message, py_get, py_getitem, handler_lookup,
    set_result. run.
  destruct message as [| | | | |fields]; simpl;
    try (intros [= <-]; done).
  destruct (py_eq_str _ "modules"); simpl.
  { destruct (assoc "data" fields); simpl; intros [= <-]; done. }
  destruct (py_eq_str _ "response"); simpl.
  { destruct (default JNull (assoc "id" fields)) as [| | |id| |]; simpl;
      try (intros [= <-]; done).
    destruct (message_handlers c !! id) as [f|]; simpl; [|done].
    destruct (assoc "result" fields) as [v|]; simpl;
      [|intros [= <-]; done].
    destruct (futures c !! f) as [[]|]; simpl; intros [= <-]; done. }
  destruct (py_eq_str _ "error"); simpl.
  { destruct (assoc "error" fields); simpl; intros [= <-]; done. }
  done.
Qed.

Lemma listener_loop_frame_step inbound c :
  frame_step c (snd (listener_loop inbound c)).
Proof.
  revert c. induction inbound as [|message rest IH]; intros c.
  { apply frame_step_refl. }
  destruct message as [text|text error|message].
  - rewrite listener_loop_unparseable.
    eapply frame_step_trans; [apply frame_step_print | apply IH].
  - apply frame_step_refl.
  - pose proof (handle_websocket_message_frame_step message c) as Hstep.
    pose proof (handle_websocket_message_raises message c) as Hraise.
    destruct (handle_websocket_message message c) as [[e|[]] c1] eqn:Hh.
    + destruct (Hraise e eq_refl) as [Hj _].
      by rewrite (listener_loop_raised _ _ _ _ _ Hh Hj).
    + rewrite (listener_loop_handled _ _ _ _ Hh).
      eapply frame_step_trans; [exact Hstep | apply IH].
Qed.

(** X8: the receive loop, over any frames whatever, registers no handler,
    creates no future and never changes a future that is no longer pending:
    a result once delivered stays, a cancelled future stays cancelled.  It
    leaves the configuration and both channels as they were. *)
Theorem listener_loop_never_overwrites inbound c f st :
  futures c !! f = Some st →
  st ≠ FPending →
  let c' := snd (listener_loop inbound c) in
  futures c' !! f = Some st
  ∧ message_handlers c' ⊆ message_handlers c
  ∧ length (futures c') = length (futures c)
  ∧ config c' = config c ∧ session c' = session c ∧ websocket c' = websocket c.
Proof.
  intros Hst Hne c'.
  destruct (listener_loop_frame_step inbound c)
    as (Hc & Hs & Hw & Hh & Hl & Hf & _).
  repeat split; try done. by apply Hf.
Qed.

Lemma listener_loop_never_overwrites_witness :
  let c := snd (handle_websocket_message (response_frame sample_id (JStr "pong"))
                  sample_pending) in
  let c' := snd (listener_loop
                   [Text (response_frame sample_id (JStr "again"));
                    Unparseable "{"; Text (JInt 3)] c) in
  futures c' !! 0%nat = Some (FResult (JStr "pong"))
  ∧ message_handlers c' ⊆ message_handlers c
  ∧ length (futures c') = length (futures c)
  ∧ config c' = config c ∧ session c' = session c ∧ websocket c' = websocket c.
Proof.
  apply (listener_loop_never_overwrites
           [Text (response_frame sample_id (JStr "again"));
            Unparseable "{"; Text (JInt 3)]
           (snd (handle_websocket_message
                   (response_frame sample_id (JStr "pong")) sample_pending))
           0%nat (FResult (JStr "pong"))).
  - reflexivity.
  - discriminate.
Defined.

(** X9: a frame whose handling raises ends the listener: it prints the
    exception and returns.  The frames after it are not handled, and no
    reconnection is tried, however the connection ends later. *)
Theorem listener_stops_when_handler_raises message rest ending reconnect c c' e :
  handle_websocket_message message c = (inl e, c') →
  listener_body (Text message :: rest) ending reconnect c
    = (inr Stopped, add_effect (Print (LogListenerError e)) c').
Proof.
  intros Hh.
  destruct (handle_websocket_message_raises message c e) as [Hj Hc].
  { by rewrite Hh. }
  unfold listener_body. cbv [try_except bind].
  rewrite (listener_loop_raised _ _ _ _ _ Hh Hj).
  by rewrite decide_False.
Qed.

Lemma listener_stops_when_handler_raises_witness :
  listener_body
    [Text (JList [JInt 1]); Text (response_frame sample_id (JStr "pong"))]
    Lost (Some (inr 8%nat)) sample_pending
    = (inr Stopped,
       add_effect (Print (LogListenerError (AttributeError "object" "get")))
         sample_pending).
Proof.
  apply (listener_stops_when_handler_raises (JList [JInt 1])
           [Text (response_frame sample_id (JStr "pong"))] Lost
           (Some (inr 8%nat)) sample_pending sample_pending
           (AttributeError "object" "get")).
  reflexivity.
Defined.

(** X10: the frames that make the handler raise without touching the
    client: a JSON value that is not an object ([AttributeError]), a
    ["modules"] frame without ["data"] and an ["error"] frame without
    ["error"] ([KeyError]), and a ["response"] frame whose ["id"] is a list
    ([TypeError]: a list cannot be a key of the table). *)
Theorem frames_that_raise message modules_fields error_fields response_fields
    items c :
  is_object message = false →
  assoc "type" modules_fields = Some (JStr "modules") →
  assoc "data" modules_fields = None →
  assoc "type" error_fields = Some (JStr "error") →
  assoc "error" error_fields = None →
  assoc "type" response_fields = Some (JStr "response") →
  assoc "id" response_fields = Some (JList items) →
  handle_websocket_message message c = (inl (AttributeError "object" "get"), c)
  ∧ handle_websocket_message (JDict modules_fields) c = (inl (KeyError "data"), c)
  ∧ handle_websocket_message (JDict error_fields) c = (inl (KeyError "error"), c)
  ∧ handle_websocket_message (JDict response_fields) c
    = (inl (TypeError "unhashable type"), c).
Proof.
  intros Hobj Hm Hd He Hee Hr Hid.
  unfold handle_websocket_message, py_get, py_getitem, handler_lookup. run.
  split; [by destruct message|].
  rewrite Hm, Hd, He, Hee, Hr, Hid. repeat split.
Qed.

Lemma frames_that_raise_witness :
  handle_websocket_message (JStr "ping") sample_pending
    = (inl (AttributeError "object" "get"), sample_pending)
  ∧ handle_websocket_message (JDict [("type", JStr "modules")]) sample_pending
    = (inl (KeyError "data"), sample_pending)
  ∧ handle_websocket_message
      (JDict [("type", JStr "error"); ("id", JStr sample_id)]) sample_pending
    = (inl (KeyError "error"), sample_pending)
  ∧ handle_websocket_message
      (JDict [("type", JStr "response"); ("id", JList []); ("result", JInt 1)])
      sample_pending
    = (inl (TypeError "unhashable type"), sample_pending).
Proof.
  apply (frames_that_raise (JStr "ping") [("type", JStr "modules")]
           [("type", JStr "error"); ("id", JStr sample_id)]
           [("type", JStr "response"); ("id", JList []); ("result", JInt 1)]
           [] sample_pending); reflexivity.
Defined.

(** X11: a response frame for a registered identifier that carries no
    ["result"] removes the handler and then raises [KeyError]: the future is
    left pending, so the call it belonged to can only time out, and a
    correct response sent afterwards is dropped. *)
Theorem response_without_result_loses_handler fields id f result c :
  assoc "type" fields = Some (JStr "response") →
  assoc "id" fields = Some (JStr id) →
  assoc "result" fields = None →
  message_handlers c !! id = Some f →
  futures c !! f = Some FPending →
  let c' := set_message_handlers (delete id (message_handlers c)) c in
  handle_websocket_message (JDict fields) c = (inl (KeyError "result"), c')
  ∧ futures c' !! f = Some FPending
  ∧ handle_websocket_message (response_frame id result) c' = (inr tt, c')
  ∧ fst (send_websocket_wait id f true c')
    = inl (PyException "WebSocket call timeout").
Proof.
  intros Ht Hi Hr Hid Hf c'. split; [|split; [done|split]].
  - unfold handle_websocket_message, py_get, py_getitem, handler_lookup. run.
    rewrite Ht, Hi, Hr. simpl. by rewrite Hid.
  - apply response_unregistered_dropped. apply lookup_delete_eq.
  - by rewrite (send_websocket_wait_elapsed c' id f Hf).
Qed.

Lemma response_without_result_loses_handler_witness :
  let c' := set_message_handlers
              (delete sample_id (message_handlers sample_pending))
              sample_pending in
  handle_websocket_message
    (JDict [("type", JStr "response"); ("id", JStr sample_id)]) sample_pending
    = (inl (KeyError "result"), c')
  ∧ futures c' !! 0%nat = Some FPending
  ∧ handle_websocket_message (response_frame sample_id (JStr "pong")) c'
    = (inr tt, c')
  ∧ fst (send_websocket_wait sample_id 0 true c')
    = inl (PyException "WebSocket call timeout").
Proof.
  apply (response_without_result_loses_handler
           [("type", JStr "response"); ("id", JStr sample_id)] sample_id 0%nat
           (JStr "pong") sample_pending); reflexivity.
Defined.

(** X12: a frame that is not tagged ["response"] never touches the pending
    calls: whatever else it holds, and whether handling it returns or
    raises, the handler table and every future are as before. *)
Theorem only_responses_touch_calls fields c :
  py_eq_str (default JNull (assoc "type" fields)) "response" = false →
  message_handlers (snd (handle_websocket_message (JDict fields) c))
    = message_handlers c
  ∧ futures (snd (handle_websocket_message (JDict fields) c)) = futures c.
Proof.
  intros Hr. unfold handle_websocket_message, py_get, py_getitem. run.
  rewrite Hr.
  destruct (py_eq_str _ "modules"); simpl.
  { by destruct (assoc "data" fields). }
  destruct (py_eq_str _ "error"); simpl; [|done].
  by destruct (assoc "error" fields).
Qed.

Lemma only_responses_touch_calls_witness :
  let frame := [("type", JStr "broadcast"); ("id", JStr sample_id);
                ("result", JInt 1)] in
  message_handlers (snd (handle_websocket_message (JDict frame) sample_pending))
    = message_handlers sample_pending
  ∧ futures (snd (handle_websocket_message (JDict frame) sample_pending))
    = futures sample_pending.
Proof.
  apply (only_responses_touch_calls
           [("type", JStr "broadcast"); ("id", JStr sample_id);
            ("result", JInt 1)] sample_pending).
  reflexivity.
Defined.

(** ** Duplex calls *)

(** X13: without a connection ([websocket] is [None]: before [init], after a
    failed handshake, after [close]) [send_websocket] and [subscribe] raise
    [Exception("WebSocket not connected")] and leave the client exactly as it
    was: no handler, no future, nothing written. *)
Theorem duplex_needs_connection target method params now_ms uuid_hex sent
    meanwhile elapsed c :
  websocket c = None →
  send_websocket target method params now_ms uuid_hex sent meanwhile elapsed c
    = (inl (PyException "WebSocket not connected"), c)
  ∧ subscribe target c = (inl (PyException "WebSocket not connected"), c).
Proof.
  intros Hws. unfold send_websocket, send_websocket_begin, subscribe. run.
  by rewrite Hws.
Qed.

Lemma duplex_needs_connection_witness :
  let c := snd (init 1 (ok_reply (JDict [("message", JStr "registered")]))
                  (inl (LibraryError "refused")) (create_interop_client None)) in
  send_websocket "ts-module" "ping" None 1700000000123
    "0123456789abcdef0123456789abcdef" None (λ c, c) true c
    = (inl (PyException "WebSocket not connected"), c)
  ∧ subscribe "ts-module" c = (inl (PyException "WebSocket not connected"), c).
Proof.
  apply (duplex_needs_connection "ts-module" "ping" None 1700000000123
           "0123456789abcdef0123456789abcdef" None (λ c, c) true
           (snd (init 1 (ok_reply (JDict [("message", JStr "registered")]))
                   (inl (LibraryError "refused")) (create_interop_client None)))).
  reflexivity.
Defined.

(** X14: [subscribe] on an open connection only schedules the send of one
    subscribe frame for the target and returns: when it returns no frame has
    been written, no handler is registered and no future created, so no
    acknowledgement is waited for.  The scheduled task, when it runs, calls
    [send] with that frame; if the send raises, the exception is the outcome
    of the task and reaches no caller: [subscribe] has already returned
    normally. *)
Theorem subscribe_fire_and_forget target c ws sent :
  websocket c = Some ws →
  let frame := JDict [("type", JStr "subscribe"); ("target", JStr target)] in
  ∃ c',
    subscribe target c = (inr tt, c')
    ∧ trace c' = (trace c ++ [CreateSendTask ws frame])%list
    ∧ message_handlers c' = message_handlers c
    ∧ futures c' = futures c
    ∧ fst (subscribe_send_task ws frame sent c')
      = match sent with None => inr tt | Some e => inl e end
    ∧ trace (snd (subscribe_send_task ws frame sent c'))
      = (trace c ++ [CreateSendTask ws frame; WsSend ws frame])%list
    ∧ message_handlers (snd (subscribe_send_task ws frame sent c'))
      = message_handlers c
    ∧ futures (snd (subscribe_send_task ws frame sent c')) = futures c.
Proof.
  intros Hws frame. unfold subscribe, subscribe_send_task. run. rewrite Hws.
  eexists. split; [reflexivity|].
  destruct sent; simpl; rewrite <- ?app_assoc; repeat split.
Qed.

Lemma subscribe_fire_and_forget_witness :
  let frame := JDict [("type", JStr "subscribe");
                      ("target", JStr "go-module")] in
  ∃ c',
    subscribe "go-module" sample_pending = (inr tt, c')
    ∧ trace c' = (trace sample_pending ++ [CreateSendTask 7 frame])%list
    ∧ message_handlers c' = message_handlers sample_pending
    ∧ futures c' = futures sample_pending
    ∧ fst (subscribe_send_task 7 frame (Some ConnectionClosed) c')
      = inl ConnectionClosed
    ∧ trace (snd (subscribe_send_task 7 frame (Some ConnectionClosed) c'))
      = (trace sample_pending ++ [CreateSendTask 7 frame; WsSend 7 frame])%list
    ∧ message_handlers (snd (subscribe_send_task 7 frame (Some ConnectionClosed) c'))
      = message_handlers sample_pending
    ∧ futures (snd (subscribe_send_task 7 frame (Some ConnectionClosed) c'))
      = futures sample_pending.
Proof.
  apply (subscribe_fire_and_forget "go-module" sample_pending 7%nat
           (Some ConnectionClosed)).
  reflexivity.
Defined.

(** X15: a call answered in time: started under an identifier that was not
    registered, with its response handled while it waits, [send_websocket]
    returns the result of that response and leaves [message_handlers]
    exactly as it was before the call. *)
Theorem answered_call_restores_table target method params now_ms uuid_hex
    result elapsed c ws :
  websocket c = Some ws →
  message_handlers c !! make_message_id now_ms uuid_hex = None →
  ∃ c',
    send_websocket target method params now_ms uuid_hex None
      (λ c1, snd (handle_websocket_message
                    (response_frame (make_message_id now_ms uuid_hex) result) c1))
      elapsed c
      = (inr (Some result), c')
    ∧ message_handlers c' = message_handlers c
    ∧ futures c' = (futures c ++ [FResult result])%list.
Proof.
  intros Hws Hfresh. unfold send_websocket. cbv [bind modify].
  rewrite (send_websocket_begin_sent _ _ _ _ _ _ _ Hws). cbn [fst snd].
  erewrite response_registered_resolves; cycle 1.
  { simpl. apply lookup_insert_eq. }
  { simpl. rewrite lookup_app_r by lia. by rewrite Nat.sub_diag. }
  cbn [snd]. eexists. split.
  - apply send_websocket_wait_result. simpl.
    apply list_lookup_insert_eq. rewrite length_app. simpl. lia.
  - simpl. split.
    + by apply delete_insert_id.
    + rewrite insert_app_r_alt by lia. by rewrite Nat.sub_diag.
Qed.

Lemma answered_call_restores_table_witness :
  ∃ c',
    send_websocket "ts-module" "ping" None 1700000000123
      "0123456789abcdef0123456789abcdef" None
      (λ c1, snd (handle_websocket_message
                    (response_frame
                       (make_message_id 1700000000123
                          "0123456789abcdef0123456789abcdef") (JStr "pong")) c1))
      true sample_client
      = (inr (Some (JStr "pong")), c')
    ∧ message_handlers c' = message_handlers sample_client
    ∧ futures c' = (futures sample_client ++ [FResult (JStr "pong")])%list.
Proof.
  apply (answered_call_restores_table "ts-module" "ping" None 1700000000123
           "0123456789abcdef0123456789abcdef" (JStr "pong") true sample_client
           7%nat); reflexivity.
Defined.

(** X16: two calls that get the same identifier (the same millisecond and
    the same first eight hexadecimal digits of the UUID): the second handler
    replaces the first.  The response then completes the second call only;
    the first stays pending and ends by its timeout. *)
Theorem identifier_collision_starves_first_call target1 method1 params1
    target2 method2 params2 now_ms uuid1 uuid2 result c ws :
  websocket c = Some ws →
  String.substring 0 8 uuid1 = String.substring 0 8 uuid2 →
  let id := make_message_id now_ms uuid1 in
  let f1 := length (futures c) in
  let f2 := S (length (futures c)) in
  let c1 := snd (send_websocket_begin target1 method1 params1 now_ms uuid1 None c) in
  let c2 := snd (send_websocket_begin target2 method2 params2 now_ms uuid2 None c1) in
  let c3 := snd (handle_websocket_message (response_frame id result) c2) in
  fst (send_websocket_begin target1 method1 params1 now_ms uuid1 None c)
    = inr (id, f1)
  ∧ fst (send_websocket_begin target2 method2 params2 now_ms uuid2 None c1)
    = inr (id, f2)
  ∧ message_handlers c2 !! id = Some f2
  ∧ send_websocket_wait id f2 true c3 = (inr (Some result), c3)
  ∧ futures c3 !! f1 = Some FPending
  ∧ message_handlers c3 !! id = None
  ∧ fst (send_websocket_wait id f1 true c3)
    = inl (PyException "WebSocket call timeout").
Proof.
  intros Hws Hsame id f1 f2 c1 c2 c3.
  assert (Hid : make_message_id now_ms uuid2 = id).
  { unfold id, make_message_id. by rewrite Hsame. }
  assert (H1 : send_websocket_begin target1 method1 params1 now_ms uuid1 None c
               = (inr (id, f1), c1)).
  { unfold c1. by rewrite (send_websocket_begin_sent _ _ _ _ _ _ _ Hws). }
  assert (Hws1 : websocket c1 = Some ws).
  { unfold c1. by rewrite (send_websocket_begin_sent _ _ _ _ _ _ _ Hws). }
  assert (Hf1 : futures c1 = (futures c ++ [FPending])%list).
  { unfold c1. by rewrite (send_websocket_begin_sent _ _ _ _ _ _ _ Hws). }
  assert (Hlen : length (futures c1) = f2).
  { rewrite Hf1, length_app. simpl. unfold f2. lia. }
  assert (H2 : send_websocket_begin target2 method2 params2 now_ms uuid2 None c1
               = (inr (id, f2), c2)).
  { unfold c2. rewrite (send_websocket_begin_sent _ _ _ _ _ _ _ Hws1).
    by rewrite Hid, Hlen. }
  assert (Hh2 : message_handlers c2 !! id = Some f2).
  { unfold c2. rewrite (send_websocket_begin_sent _ _ _ _ _ _ _ Hws1).
    simpl. rewrite Hid, Hlen. apply lookup_insert_eq. }
  assert (Hfs2 : futures c2 = (futures c ++ [FPending; FPending])%list).
  { unfold c2. rewrite (send_websocket_begin_sent _ _ _ _ _ _ _ Hws1).
    simpl. rewrite Hf1. by rewrite <- app_assoc. }
  assert (Hp2 : futures c2 !! f2 = Some FPending).
  { rewrite Hfs2. unfold f2. rewrite lookup_app_r by lia.
    by replace (S (length (futures c)) - length (futures c))%nat with 1%nat by lia. }
  assert (Hp1 : futures c2 !! f1 = Some FPending).
  { rewrite Hfs2. unfold f1. rewrite lookup_app_r by lia.
    by rewrite Nat.sub_diag. }
  assert (H3 : c3 = set_futures (<[f2 := FResult result]> (futures c2))
                      (set_message_handlers (delete id (message_handlers c2)) c2)).
  { unfold c3. by rewrite (response_registered_resolves _ _ _ _ Hh2 Hp2). }
  assert (Hp1' : futures c3 !! f1 = Some FPending).
  { rewrite H3. simpl. rewrite list_lookup_insert_ne; [done|]. unfold f1, f2. lia. }
  rewrite H1, H2. repeat split; try done.
  - apply send_websocket_wait_result. rewrite H3. simpl.
    apply list_lookup_insert_eq. by eapply lookup_lt_Some.
  - rewrite H3. simpl. apply lookup_delete_eq.
  - by rewrite (send_websocket_wait_elapsed _ _ _ Hp1').
Qed.

Lemma identifier_collision_starves_first_call_witness :
  let id := make_message_id 1700000000123 "0123456789abcdef0123456789abcdef" in
  let c1 := snd (send_websocket_begin "ts-module" "ping" None 1700000000123
                   "0123456789abcdef0123456789abcdef" None sample_client) in
  let c2 := snd (send_websocket_begin "go-module" "saveData" None 1700000000123
                   "01234567ffffffffffffffffffffffff" None c1) in
  let c3 := snd (handle_websocket_message (response_frame id (JStr "saved")) c2) in
  fst (send_websocket_begin "ts-module" "ping" None 1700000000123
         "0123456789abcdef0123456789abcdef" None sample_client)
    = inr (id, length (futures sample_client))
  ∧ fst (send_websocket_begin "go-module" "saveData" None 1700000000123
           "01234567ffffffffffffffffffffffff" None c1)
    = inr (id, S (length (futures sample_client)))
  ∧ message_handlers c2 !! id = Some (S (length (futures sample_client)))
  ∧ send_websocket_wait id (S (length (futures sample_client))) true c3
    = (inr (Some (JStr "saved")), c3)
  ∧ futures c3 !! length (futures sample_client) = Some FPending
  ∧ message_handlers c3 !! id = None
  ∧ fst (send_websocket_wait id (length (futures sample_client)) true c3)
    = inl (PyException "WebSocket call timeout").
Proof.
  apply (identifier_collision_starves_first_call "ts-module" "ping" None
           "go-module" "saveData" None 1700000000123
           "0123456789abcdef0123456789abcdef" "01234567ffffffffffffffffffffffff"
           (JStr "saved") sample_client 7%nat); reflexivity.
Defined.

Lemma string_length_app (s t : string) :
  String.length (s +:+ t) = (String.length s + String.length t)%nat.
Proof. induction s as [|a s IH]; simpl; [done|]. by rewrite <- IH. Qed.

Lemma string_app_inj_length (s1 s2 t1 t2 : string) :
  s1 +:+ t1 = s2 +:+ t2 →
  String.length t1 = String.length t2 →
  s1 = s2 ∧ t1 = t2.
Proof.
  revert s2. induction s1 as [|a s1 IH]; intros [|b s2] Heq Hlen.
  - done.
  - exfalso. change ("" +:+ t1) with t1 in Heq. rewrite Heq in Hlen.
    change (String b s2 +:+ t2) with (String b (s2 +:+ t2)) in Hlen.
    simpl in Hlen. rewrite string_length_app in Hlen. lia.
  - exfalso. change ("" +:+ t2) with t2 in Heq. rewrite <- Heq in Hlen.
    change (String a s1 +:+ t1) with (String a (s1 +:+ t1)) in Hlen.
    simpl in Hlen. rewrite string_length_app in Hlen. lia.
  - change (String a (s1 +:+ t1) = String b (s2 +:+ t2)) in Heq.
    injection Heq as -> Heq. destruct (IH s2 Heq Hlen) as [-> ->]. done.
Qed.

Lemma substring_0_length (m : nat) (s : string) :
  (m ≤ String.length s)%nat → String.length (String.substring 0 m s) = m.
Proof.
  revert s. induction m as [|m IH]; intros [|a s] Hm; simpl in *; try lia.
  rewrite IH; lia.
Qed.

(** X17: identifiers are told apart by the millisecond and the first eight
    hexadecimal digits of the UUID, and by nothing else: two calls get the
    same identifier only if both agree. *)
Theorem message_id_injective now1 now2 uuid1 uuid2 :
  (8 ≤ String.length uuid1)%nat →
  (8 ≤ String.length uuid2)%nat →
  make_message_id now1 uuid1 = make_message_id now2 uuid2 →
  now1 = now2 ∧ String.substring 0 8 uuid1 = String.substring 0 8 uuid2.
Proof.
  intros H1 H2 Heq. unfold make_message_id in Heq.
  apply (inj (String.app "ws_")) in Heq.
  apply string_app_inj_length in Heq as [Hnow Htail].
  - split; [by apply (inj pretty)|].
    by apply (inj (String.app "_")) in Htail.
  - rewrite !string_length_app, !substring_0_length by done. done.
Qed.

Lemma message_id_injective_witness :
  1700000000123 = 1700000000123
  ∧ String.substring 0 8 "0123456789abcdef0123456789abcdef"
    = String.substring 0 8 "01234567ffffffffffffffffffffffff".
Proof.
  apply (message_id_injective 1700000000123 1700000000123
           "0123456789abcdef0123456789abcdef" "01234567ffffffffffffffffffffffff").
  - simpl. lia.
  - simpl. lia.
  - reflexivity.
Defined.

(** ** The address of the duplex channel *)

Lemma replace_from_absent (old new s : string) :
  occurs old s = false → replace_from old new O s = s.
Proof.
  induction s as [|a s IH]; intros Hocc; [done|].
  cbn [occurs] in Hocc. apply orb_false_iff in Hocc as [Hp Hrest].
  cbn [replace_from]. rewrite Hp. by rewrite IH.
Qed.

Lemma str_replace_http_prefix (rest : string) :
  str_replace "http" "ws" ("http" +:+ rest)
    = "ws" +:+ str_replace "http" "ws" rest.
Proof. reflexivity. Qed.

(** X18: the WebSocket address is the server URL with every ["http"]
    replaced by ["ws"].  For a URL that starts with ["http"] and has no
    other occurrence of it, [connect_websocket] connects to the same address
    under ["ws"]: [http://] becomes [ws://] and [https://] becomes
    [wss://]. *)
Theorem connect_websocket_address rest hs c :
  server_url (config c) = "http" +:+ rest →
  occurs "http" rest = false →
  ∃ tail,
    trace (snd (connect_websocket hs c))
      = (trace c ++ WsConnect ("ws" +:+ rest) :: tail)%list.
Proof.
  intros Hurl Hocc. unfold connect_websocket. run. rewrite Hurl.
  rewrite str_replace_http_prefix. unfold str_replace.
  rewrite (replace_from_absent _ _ _ Hocc).
  destruct hs; simpl; eexists; rewrite <- ?app_assoc; reflexivity.
Qed.

Lemma connect_websocket_address_witness :
  let cfg := {| server_url := "https://broker.example:4000";
                module_name := "m"; language := "python"; port := None;
                auto_register := false |} in
  ∃ tail,
    trace (snd (connect_websocket (inr 7%nat) (create_interop_client (Some cfg))))
      = (trace (create_interop_client (Some cfg)) ++
         WsConnect ("ws" +:+ "s://broker.example:4000") :: tail)%list.
Proof.
  apply (connect_websocket_address "s://broker.example:4000" (inr 7%nat)
           (create_interop_client
              (Some {| server_url := "https://broker.example:4000";
                       module_name := "m"; language := "python"; port := None;
                       auto_register := false |}))); reflexivity.
Defined.

Lemma is_prefix_http_window a (s after : string) :
  is_prefix "http" (String a (s +:+ "http" +:+ after))
    = is_prefix "http" (String a (s +:+ "htt")).
Proof. destruct s as [|b [|c [|d s]]]; reflexivity. Qed.

Lemma replace_http_inner (before after : string) :
  occurs "http" (before +:+ "htt") = false →
  replace_from "http" "ws" O (before +:+ "http" +:+ after)
    = before +:+ "ws" +:+ replace_from "http" "ws" O after.
Proof.
  induction before as [|a before IH]; intros Hocc; [reflexivity|].
  change (String a before +:+ "htt") with (String a (before +:+ "htt")) in Hocc.
  cbn [occurs] in Hocc. apply orb_false_iff in Hocc as [Hp Hrest].
  change (String a before +:+ "http" +:+ after)
    with (String a (before +:+ "http" +:+ after)).
  cbn [replace_from]. rewrite is_prefix_http_window, Hp.
  by rewrite (IH Hrest).
Qed.

(** X19: the replacement is not limited to the scheme: a second ["http"],
    in the host or the path, is rewritten as well, so the client then
    connects to an address that differs from the server's. *)
Theorem connect_websocket_rewrites_every_http before after hs c :
  server_url (config c) = "http" +:+ before +:+ "http" +:+ after →
  occurs "http" (before +:+ "htt") = false →
  occurs "http" after = false →
  ∃ tail,
    trace (snd (connect_websocket hs c))
      = (trace c ++ WsConnect ("ws" +:+ before +:+ "ws" +:+ after) :: tail)%list.
Proof.
  intros Hurl Hbefore Hafter. unfold connect_websocket. run. rewrite Hurl.
  rewrite str_replace_http_prefix. unfold str_replace.
  rewrite (replace_http_inner _ _ Hbefore), (replace_from_absent _ _ _ Hafter).
  destruct hs; simpl; eexists; rewrite <- ?app_assoc; reflexivity.
Qed.

Lemma connect_websocket_rewrites_every_http_witness :
  let cfg := {| server_url := "http://httpbin.example:4000";
                module_name := "m"; language := "python"; port := None;
                auto_register := false |} in
  ∃ tail,
    trace (snd (connect_websocket (inr 7%nat) (create_interop_client (Some cfg))))
      = (trace (create_interop_client (Some cfg)) ++
         WsConnect ("ws" +:+ "://" +:+ "ws" +:+ "bin.example:4000") :: tail)%list.
Proof.
  apply (connect_websocket_rewrites_every_http "://" "bin.example:4000"
           (inr 7%nat)
           (create_interop_client
              (Some {| server_url := "http://httpbin.example:4000";
                       module_name := "m"; language := "python"; port := None;
                       auto_register := false |}))); reflexivity.
Defined.

(** ** Reply shapes *)

Lemma kwargs_accepted_spec fields (kwargs : list (string * json)) :
  kwargs_accepted fields kwargs = true ↔ ∀ k v, (k, v) ∈ kwargs → k ∈ fields.
Proof.
  unfold kwargs_accepted. rewrite forallb_forall. split.
  - intros H k v Hin. apply list_elem_of_In in Hin.
    apply H in Hin. by apply bool_decide_eq_true in Hin.
  - intros H [k v] Hin. apply bool_decide_eq_true.
    apply (H k v). by apply list_elem_of_In.
Qed.

Lemma comprehension_spec {A} (f : json → exn + A) items (l : list A) :
  comprehension f items = inr l ↔ Forall2 (λ x a, f x = inr a) items l.
Proof.
  revert l. induction items as [|x items IH]; intros l; simpl.
  - split.
    + intros [= <-]. constructor.
    + intros H. by inversion H.
  - destruct (f x) as [e|a] eqn:Hx.
    + split; [done|]. intros H. inversion H; congruence.
    + destruct (comprehension f items) as [e|l'] eqn:Hrest.
      * split; [done|]. intros H. inversion H as [|? b ? l'' Hb Hl]; subst.
        apply IH in Hl. congruence.
      * split.
        -- intros [= <-]. constructor; [done|]. by apply IH.
        -- intros H. inversion H as [|? b ? l'' Hb Hl]; subst.
           apply IH in Hl. congruence.
Qed.

Lemma InteropMessage_init_raises msg e :
  InteropMessage_init msg = inl e → ∃ text, e = TypeError text.
Proof.
  unfold InteropMessage_init. intros H.
  destruct msg as [| | | | |kw]; try (injection H as <-; by eexists).
  destruct (kwargs_accepted _ kw); [|injection H as <-; by eexists].
  destruct (assoc "id" kw), (assoc "target" kw), (assoc "method" kw),
    (assoc "params" kw); try done; injection H as <-; by eexists.
Qed.

(** X20: [InteropMessage] built from a reply object succeeds exactly when
    every key of the object is a field name and the four fields without a
    default (id, target, method, params) are present; one unknown key is
    enough to fail.  Every failure is a [TypeError]. *)
Theorem InteropMessage_init_accepts kwargs msg e :
  ((∃ m, InteropMessage_init (JDict kwargs) = inr m)
   ↔ (∀ k v, (k, v) ∈ kwargs → k ∈ InteropMessage_fields)
     ∧ is_Some (assoc "id" kwargs) ∧ is_Some (assoc "target" kwargs)
     ∧ is_Some (assoc "method" kwargs) ∧ is_Some (assoc "params" kwargs))
  ∧ (InteropMessage_init msg = inl e → ∃ text, e = TypeError text).
Proof.
  split; [|apply InteropMessage_init_raises].
  unfold InteropMessage_init. rewrite <- kwargs_accepted_spec.
  destruct (kwargs_accepted _ kwargs).
  - destruct (assoc "id" kwargs) as [i|], (assoc "target" kwargs) as [t|],
      (assoc "method" kwargs) as [m|], (assoc "params" kwargs) as [p|];
      (split; [intros [x Hx]; try discriminate Hx; repeat split; eauto
              |intros (_ & [? H1] & [? H2] & [? H3] & [? H4]);
               try discriminate H1; try discriminate H2;
               try discriminate H3; try discriminate H4; eauto]).
  - split; [intros [x Hx]; discriminate Hx | intros [H _]; discriminate H].
Qed.

Lemma InteropMessage_init_accepts_witness :
  ∃ m, InteropMessage_init
         (JDict [("id", JStr "m1"); ("target", JStr "go-module");
                 ("method", JStr "saveData"); ("params", JDict []);
                 ("status", JStr "done")]) = inr m.
Proof.
  apply (proj2 (proj1 (InteropMessage_init_accepts
           [("id", JStr "m1"); ("target", JStr "go-module");
            ("method", JStr "saveData"); ("params", JDict []);
            ("status", JStr "done")] JNull JSONDecodeError))).
  split.
  - intros k v Hin. unfold InteropMessage_fields.
    repeat (apply elem_of_cons in Hin as [Hin|Hin];
            [injection Hin as -> _; set_solver|]).
    by apply elem_of_nil in Hin.
  - repeat split; eexists; reflexivity.
Defined.

(** X21: the fields of an [InteropMessage] built from a reply object are the
    values the object holds under the field names; a field the object leaves
    out takes its default: priority 0, timestamp [""], status ["queued"],
    result and error [None]. *)
Theorem InteropMessage_init_fields kwargs m :
  InteropMessage_init (JDict kwargs) = inr m →
  assoc "id" kwargs = Some (im_id m)
  ∧ assoc "target" kwargs = Some (im_target m)
  ∧ assoc "method" kwargs = Some (im_method m)
  ∧ assoc "params" kwargs = Some (im_params m)
  ∧ im_priority m = default (JInt 0) (assoc "priority" kwargs)
  ∧ im_timestamp m = default (JStr "") (assoc "timestamp" kwargs)
  ∧ im_status m = default (JStr "queued") (assoc "status" kwargs)
  ∧ im_result m = default JNull (assoc "result" kwargs)
  ∧ im_error m = default JNull (assoc "error" kwargs).
Proof.
  unfold InteropMessage_init. intros H.
  destruct (kwargs_accepted _ kwargs); [|discriminate H].
  destruct (assoc "id" kwargs), (assoc "target" kwargs),
    (assoc "method" kwargs), (assoc "params" kwargs); try discriminate H.
  injection H as <-. repeat split.
Qed.

Lemma InteropMessage_init_fields_witness :
  let kwargs := [("id", JStr "m1"); ("target", JStr "go-module");
                 ("method", JStr "saveData"); ("params", JDict []);
                 ("priority", JInt 5)] in
  let m := {| im_id := JStr "m1"; im_target := JStr "go-module";
              im_method := JStr "saveData"; im_params := JDict [];
              im_priority := JInt 5; im_timestamp := JStr "";
              im_status := JStr "queued"; im_result := JNull;
              im_error := JNull |} in
  assoc "id" kwargs = Some (im_id m)
  ∧ assoc "target" kwargs = Some (im_target m)
  ∧ assoc "method" kwargs = Some (im_method m)
  ∧ assoc "params" kwargs = Some (im_params m)
  ∧ im_priority m = default (JInt 0) (assoc "priority" kwargs)
  ∧ im_timestamp m = default (JStr "") (assoc "timestamp" kwargs)
  ∧ im_status m = default (JStr "queued") (assoc "status" kwargs)
  ∧ im_result m = default JNull (assoc "result" kwargs)
  ∧ im_error m = default JNull (assoc "error" kwargs).
Proof.
  apply (InteropMessage_init_fields
           [("id", JStr "m1"); ("target", JStr "go-module");
            ("method", JStr "saveData"); ("params", JDict []);
            ("priority", JInt 5)]).
  reflexivity.
Defined.

Lemma ModuleInfo_init_raises module e :
  ModuleInfo_init module = inl e → ∃ text, e = TypeError text.
Proof.
  unfold ModuleInfo_init. intros H.
  destruct module as [| | | | |kw]; try (injection H as <-; by eexists).
  destruct (kwargs_accepted _ kw); [|injection H as <-; by eexists].
  destruct (assoc "name" kw), (assoc "language" kw), (assoc "endpoints" kw),
    (assoc "port" kw), (assoc "registered_at" kw), (assoc "last_seen" kw);
    try done; injection H as <-; by eexists.
Qed.

(** X22: [ModuleInfo] has no defaults: built from a reply object it
    succeeds exactly when the object has all six fields (name, language,
    endpoints, port, registered_at, last_seen) and no other key, and then it
    holds the object's values.  Every failure is a [TypeError]. *)
Theorem ModuleInfo_init_accepts kwargs module e :
  ((∃ m, ModuleInfo_init (JDict kwargs) = inr m)
   ↔ (∀ k v, (k, v) ∈ kwargs → k ∈ ModuleInfo_fields)
     ∧ is_Some (assoc "name" kwargs) ∧ is_Some (assoc "language" kwargs)
     ∧ is_Some (assoc "endpoints" kwargs) ∧ is_Some (assoc "port" kwargs)
     ∧ is_Some (assoc "registered_at" kwargs)
     ∧ is_Some (assoc "last_seen" kwargs))
  ∧ (∀ m, ModuleInfo_init (JDict kwargs) = inr m →
       assoc "name" kwargs = Some (mi_name m)
       ∧ assoc "language" kwargs = Some (mi_language m)
       ∧ assoc "endpoints" kwargs = Some (mi_endpoints m)
       ∧ assoc "port" kwargs = Some (mi_port m)
       ∧ assoc "registered_at" kwargs = Some (mi_registered_at m)
       ∧ assoc "last_seen" kwargs = Some (mi_last_seen m))
  ∧ (ModuleInfo_init module = inl e → ∃ text, e = TypeError text).
Proof.
  split; [|split; [|apply ModuleInfo_init_raises]].
  - unfold ModuleInfo_init. rewrite <- kwargs_accepted_spec.
    destruct (kwargs_accepted _ kwargs).
    + destruct (assoc "name" kwargs), (assoc "language" kwargs),
        (assoc "endpoints" kwargs), (assoc "port" kwargs),
        (assoc "registered_at" kwargs), (assoc "last_seen" kwargs);
        (split; [intros [x Hx]; try discriminate Hx; repeat split; eauto
                |intros (_ & [? H1] & [? H2] & [? H3] & [? H4] & [? H5] & [? H6]);
                 try discriminate H1; try discriminate H2;
                 try discriminate H3; try discriminate H4;
                 try discriminate H5; try discriminate H6; eauto]).
    + split; [intros [x Hx]; discriminate Hx | intros [H _]; discriminate H].
  - unfold ModuleInfo_init. intros m H.
    destruct (kwargs_accepted _ kwargs); [|discriminate H].
    destruct (assoc "name" kwargs), (assoc "language" kwargs),
      (assoc "endpoints" kwargs), (assoc "port" kwargs),
      (assoc "registered_at" kwargs), (assoc "last_seen" kwargs);
      try discriminate H.
    injection H as <-. repeat split.
Qed.

Lemma ModuleInfo_init_accepts_witness :
  ∃ m, ModuleInfo_init
         (JDict [("name", JStr "go-module"); ("language", JStr "go");
                 ("endpoints", JList [JStr "rpc"]); ("port", JNull);
                 ("registered_at", JStr "t0"); ("last_seen", JStr "t1")])
       = inr m.
Proof.
  apply (proj2 (proj1 (ModuleInfo_init_accepts
           [("name", JStr "go-module"); ("language", JStr "go");
            ("endpoints", JList [JStr "rpc"]); ("port", JNull);
            ("registered_at", JStr "t0"); ("last_seen", JStr "t1")]
           JNull JSONDecodeError))).
  split.
  - intros k v Hin. unfold ModuleInfo_fields.
    repeat (apply elem_of_cons in Hin as [Hin|Hin];
            [injection Hin as -> _; set_solver|]).
    by apply elem_of_nil in Hin.
  - repeat split; eexists; reflexivity.
Defined.

(** X23: what [get_queue] returns from a reply whose ["queue"] is a list is
    all or nothing: it is the list of the messages built from the entries,
    one for one and in order, when every entry can be built; a single entry
    that cannot makes the whole call fail with a [TypeError].  The client is
    untouched either way. *)
Theorem get_queue_messages_all_or_nothing fields items c :
  assoc "queue" fields = Some (JList items) →
  snd (get_queue_messages (JDict fields) c) = c
  ∧ (∀ ms, fst (get_queue_messages (JDict fields) c) = inr ms
           ↔ Forall2 (λ x m, InteropMessage_init x = inr m) items ms)
  ∧ (∀ e, fst (get_queue_messages (JDict fields) c) = inl e →
          (∃ text, e = TypeError text)
          ∧ ∃ x, x ∈ items ∧ InteropMessage_init x = inl e).
Proof.
  intros Hq. unfold get_queue_messages, py_getitem, py_iter. run.
  rewrite Hq. simpl.
  destruct (comprehension InteropMessage_init items) as [e|ms] eqn:Hc; simpl.
  - split; [done|]. split.
    + intros ms. split; [done|]. intros H%comprehension_spec. congruence.
    + intros e' [= <-]. clear Hq.
      assert (∃ x, x ∈ items ∧ InteropMessage_init x = inl e) as (x & Hx & He).
      { revert Hc. induction items as [|y items IH]; simpl; [done|].
        destruct (InteropMessage_init y) as [e0|a] eqn:Hy.
        - intros [= <-]. exists y. split; [left|done].
        - destruct (comprehension InteropMessage_init items); [|done].
          intros [= <-]. destruct IH as (x & Hx & He); [done|].
          exists x. split; [by right|done]. }
      split; [by eapply InteropMessage_init_raises | by exists x].
  - split; [done|]. split.
    + intros ms'. rewrite <- comprehension_spec, Hc. split; congruence.
    + done.
Qed.

Lemma get_queue_messages_all_or_nothing_witness :
  let good := JDict [("id", JStr "m1"); ("target", JStr "go-module");
                     ("method", JStr "saveData"); ("params", JDict [])] in
  let bad := JDict [("id", JStr "m2"); ("target", JStr "go-module");
                    ("method", JStr "saveData"); ("params", JDict []);
                    ("retries", JInt 2)] in
  let fields := [("queue", JList [good; bad])] in
  snd (get_queue_messages (JDict fields) sample_client) = sample_client
  ∧ (∀ ms, fst (get_queue_messages (JDict fields) sample_client) = inr ms
           ↔ Forall2 (λ x m, InteropMessage_init x = inr m) [good; bad] ms)
  ∧ (∀ e, fst (get_queue_messages (JDict fields) sample_client) = inl e →
          (∃ text, e = TypeError text)
          ∧ ∃ x, x ∈ [good; bad] ∧ InteropMessage_init x = inl e).
Proof.
  apply (get_queue_messages_all_or_nothing
           [("queue",
             JList [JDict [("id", JStr "m1"); ("target", JStr "go-module");
                           ("method", JStr "saveData"); ("params", JDict [])];
                    JDict [("id", JStr "m2"); ("target", JStr "go-module");
                           ("method", JStr "saveData"); ("params", JDict []);
                           ("retries", JInt 2)]])]).
  reflexivity.
Defined.

Lemma comprehension_failure {A} (f : json → exn + A) items e :
  comprehension f items = inl e → ∃ x, x ∈ items ∧ f x = inl e.
Proof.
  induction items as [|y items IH]; simpl; [done|].
  destruct (f y) as [e0|a] eqn:Hy.
  - intros [= <-]. exists y. split; [left|done].
  - destruct (comprehension f items); [|done].
    intros [= <-]. destruct IH as (x & Hx & He); [done|].
    exists x. split; [by right|done].
Qed.

(** X24: what [get_modules] returns from a reply whose ["modules"] is a
    list is all or nothing as well: one [ModuleInfo] per entry, in order,
    when every entry has exactly the six fields; otherwise the [TypeError]
    of the first entry that cannot be built. *)
Theorem get_modules_infos_all_or_nothing fields items c :
  assoc "modules" fields = Some (JList items) →
  snd (get_modules_infos (JDict fields) c) = c
  ∧ (∀ infos, fst (get_modules_infos (JDict fields) c) = inr infos
              ↔ Forall2 (λ x m, ModuleInfo_init x = inr m) items infos)
  ∧ (∀ e, fst (get_modules_infos (JDict fields) c) = inl e →
          (∃ text, e = TypeError text)
          ∧ ∃ x, x ∈ items ∧ ModuleInfo_init x = inl e).
Proof.
  intros Hq. unfold get_modules_infos, py_getitem, py_iter. run.
  rewrite Hq. simpl.
  destruct (comprehension ModuleInfo_init items) as [e|ms] eqn:Hc; simpl.
  - split; [done|]. split.
    + intros ms. split; [done|]. intros H%comprehension_spec. congruence.
    + intros e' [= <-]. destruct (comprehension_failure _ _ _ Hc) as (x & Hx & He).
      split; [by eapply ModuleInfo_init_raises | by exists x].
  - split; [done|]. split.
    + intros ms'. rewrite <- comprehension_spec, Hc. split; congruence.
    + done.
Qed.

Lemma get_modules_infos_all_or_nothing_witness :
  let entry := JDict [("name", JStr "go-module"); ("language", JStr "go")] in
  let fields := [("modules", JList [entry])] in
  snd (get_modules_infos (JDict fields) sample_client) = sample_client
  ∧ (∀ infos, fst (get_modules_infos (JDict fields) sample_client) = inr infos
              ↔ Forall2 (λ x m, ModuleInfo_init x = inr m) [entry] infos)
  ∧ (∀ e, fst (get_modules_infos (JDict fields) sample_client) = inl e →
          (∃ text, e = TypeError text)
          ∧ ∃ x, x ∈ [entry] ∧ ModuleInfo_init x = inl e).
Proof.
  apply (get_modules_infos_all_or_nothing
           [("modules",
             JList [JDict [("name", JStr "go-module");
                           ("language", JStr "go")]])]).
  reflexivity.
Defined.

(** X25: replies without a usable queue.  A reply object without ["queue"]
    makes [get_queue] raise [KeyError]; a ["queue"] that is [null] raises
    [TypeError], as nothing can be iterated; a ["queue"] that is an empty
    object passes for an empty queue. *)
Theorem get_queue_messages_without_list missing null empty c :
  assoc "queue" missing = None →
  assoc "queue" null = Some JNull →
  assoc "queue" empty = Some (JDict []) →
  get_queue_messages (JDict missing) c = (inl (KeyError "queue"), c)
  ∧ get_queue_messages (JDict null) c
    = (inl (TypeError "object is not iterable"), c)
  ∧ get_queue_messages (JDict empty) c = (inr [], c).
Proof.
  intros Hm Hn He. unfold get_queue_messages, py_getitem, py_iter. run.
  by rewrite Hm, Hn, He.
Qed.

Lemma get_queue_messages_without_list_witness :
  get_queue_messages (JDict [("error", JStr "busy")]) sample_client
    = (inl (KeyError "queue"), sample_client)
  ∧ get_queue_messages (JDict [("queue", JNull)]) sample_client
    = (inl (TypeError "object is not iterable"), sample_client)
  ∧ get_queue_messages (JDict [("queue", JDict [])]) sample_client
    = (inr [], sample_client).
Proof.
  apply (get_queue_messages_without_list [("error", JStr "busy")]
           [("queue", JNull)] [("queue", JDict [])] sample_client);
    reflexivity.
Defined.

(** X26: a frame on which [json.loads] fails with anything but
    [JSONDecodeError] (nesting too deep, an integer over the digit limit, a
    binary frame that is not UTF-8) is not caught inside the loop: the
    listener prints the error and returns, the frames after it are not
    handled, and no reconnection is tried. *)
Theorem listener_stops_when_loads_fails text error rest ending reconnect c :
  listener_loop (Unloadable text error :: rest) c = (inl (LibraryError error), c)
  ∧ listener_body (Unloadable text error :: rest) ending reconnect c
    = (inr Stopped, add_effect (Print (LogListenerError (LibraryError error))) c).
Proof. split; reflexivity. Qed.
